(** * Hybrid and vector search over Elasticsearch: query construction,
      filter translation and result processing.

    The development embeds [src/search/hybrid_search.py],
    [src/search/vector_search.py] and the filter clean-up of
    [src/agent/agent.py].  Python dictionaries are finite maps with string
    keys, Python floats are IEEE binary64 numbers, exceptions are an explicit
    outcome, and the two collaborators of the search classes (the embedding
    generator and the Elasticsearch client) are explicit parameters whose
    calls are recorded in a log. *)

From Stdlib Require Import ZArith PrimFloat Ascii.
From stdpp Require Import gmap strings list fin_maps pretty.

Set Warnings "-register-all".
#[local] Open Scope Z_scope.

(** ** Python values *)

Module Py.

(** The values that travel through [Dict[str, Any]]: JSON data. *)
Inductive json : Type :=
| JNull
| JBool (b : bool)
| JInt (z : Z)
| JFloat (f : float)
| JStr (s : string)
| JArr (l : list json)
| JObj (m : gmap string json).

(** A raised exception: its class, its message and its [__cause__]. *)
Inductive pyexc : Type :=
| PyExc (cls : string) (msg : string) (cause : option pyexc).

Definition exc_class (e : pyexc) : string :=
  match e with PyExc c _ _ => c end.

Definition exc_cause (e : pyexc) : option pyexc :=
  match e with PyExc _ _ c => c end.

(** A Python call either returns a value or raises. *)
Inductive outcome (A : Type) : Type :=
| Return (a : A)
| Raise (e : pyexc).

Arguments Return {A} a.
Arguments Raise {A} e.

#[export] Instance outcome_ret : MRet outcome := λ A a, Return a.

#[export] Instance outcome_bind : MBind outcome := λ A B k m,
  match m with
  | Return a => k a
  | Raise e => Raise e
  end.

#[export] Instance outcome_fmap : FMap outcome := λ A B f m,
  match m with
  | Return a => Return (f a)
  | Raise e => Raise e
  end.

(** [k in d] *)
Definition contains (k : string) (d : gmap string json) : bool :=
  match d !! k with Some _ => true | None => false end.

(** [d[k]], a [KeyError] when the key is missing. *)
Definition getitem (d : gmap string json) (k : string) : outcome json :=
  match d !! k with
  | Some v => Return v
  | None => Raise (PyExc "KeyError" k None)
  end.

(** [{**base, **extra}]: the later entries win. *)
Definition dict_merge (base extra : gmap string json) : gmap string json :=
  extra ∪ base.

(** Truthiness of an [Optional[Dict]] as tested by [if filters:]. *)
Definition truthy (filters : option (gmap string json)) : bool :=
  match filters with
  | None => false
  | Some d => negb (bool_decide (d = ∅))
  end.

(** Follow a path of keys through nested objects. *)
Fixpoint jpath (path : list string) (j : json) : option json :=
  match path with
  | [] => Some j
  | k :: rest =>
      match j with
      | JObj m => match m !! k with Some c => jpath rest c | None => None end
      | _ => None
      end
  end.

End Py.
Import Py.

(** ** Elasticsearch requests and responses, collaborators *)

Module ES.

(** One element of [response['hits']['hits']]. *)
Record hit : Type := Hit {
  _id : string;
  _score : float;
  _source : gmap string json
}.

Record response : Type := Response {
  hits : list hit
}.

(** The keyword arguments of [client.search]; [query] and [rank] are
    passed by the hybrid search only. *)
Record search_request : Type := SearchRequest {
  req_index : string;
  req_query : option json;
  req_knn : json;
  req_size : Z;
  req__source : json;
  req_rank : option json
}.

(** The module-level singletons [es_config] and [embedding_generator]. *)
Record collaborators : Type := Collaborators {
  index_name : string;
  encode_query : string → outcome (list float);
  client_search : search_request → outcome response
}.

Inductive call : Type :=
| EncodeQuery (query : string)
| ClientSearch (req : search_request).

(** Computations that may call the collaborators: the calls issued so far
    are threaded through, an exception ends the computation. *)
Definition M (A : Type) : Type :=
  collaborators → list call → outcome A * list call.

#[export] Instance M_ret : MRet M := λ A a _ log, (Return a, log).

#[export] Instance M_bind : MBind M := λ A B k m w log,
  match m w log with
  | (Return a, log') => k a w log'
  | (Raise e, log') => (Raise e, log')
  end.

Definition lift {A} (m : outcome A) : M A := λ _ log, (m, log).

Definition get_index_name : M string := λ w log, (Return (index_name w), log).

Definition call_encode_query (query : string) : M (list float) :=
  λ w log, (encode_query w query, log ++ [EncodeQuery query]).

Definition call_client_search (req : search_request) : M response :=
  λ w log, (client_search w req, log ++ [ClientSearch req]).

(** The retrieval requests among the calls of a log. *)
Definition backend_requests (log : list call) : list search_request :=
  omap (λ c, match c with ClientSearch r => Some r | _ => None end) log.

Definition embedding_calls (log : list call) : list string :=
  omap (λ c, match c with EncodeQuery q => Some q | _ => None end) log.

(** Elasticsearch's [field^boost] notation of [multi_match]: a field
    without a caret has boost 1. *)
Fixpoint split_caret (s : string) : string * option string :=
  match s with
  | EmptyString => (EmptyString, None)
  | String c rest =>
      if Ascii.eqb c "^"%char then (EmptyString, Some rest)
      else let '(name, boost) := split_caret rest in (String c name, boost)
  end.

Fixpoint decimal (acc : Z) (s : string) : Z :=
  match s with
  | EmptyString => acc
  | String c rest => decimal (10 * acc + (Z.of_nat (Ascii.nat_of_ascii c) - 48)) rest
  end.

Definition field_boost (s : string) : string * Z :=
  match split_caret s with
  | (name, Some boost) => (name, decimal 0 boost)
  | (name, None) => (name, 1)
  end.

Definition field_boosts (fields : json) : list (string * Z) :=
  match fields with
  | JArr l => omap (λ j, match j with JStr s => Some (field_boost s) | _ => None end) l
  | _ => []
  end.

(** The fields matched by the source-filter pattern ["*_vector"]. *)
Definition is_vector_field (name : string) : bool :=
  bool_decide (String.list_ascii_of_string "_vector"
                 `suffix_of` String.list_ascii_of_string name).

End ES.
Import ES.

(** ** Hybrid search *)

Module HybridSearch.

Definition default_top_k : Z := 10.
Definition default_semantic_weight : float := 0.5%float.

(** [HybridSearch._build_filters] *)
Definition _build_filters (filters : gmap string json) : outcome (list json) :=
  let must_clauses : list json := [] in
  must_clauses ←
    (if contains "min_price" filters || contains "max_price" filters then
       let price : gmap string json := ∅ in
       price ←
         (if contains "min_price" filters then
            v ← getitem filters "min_price"; mret (<["gte" := v]> price)
          else mret price);
       price ←
         (if contains "max_price" filters then
            v ← getitem filters "max_price"; mret (<["lte" := v]> price)
          else mret price);
       let range_filter := JObj {["range" := JObj {["price" := JObj price]}]} in
       mret (must_clauses ++ [range_filter])
     else mret must_clauses);
  must_clauses ←
    (if contains "category" filters then
       v ← getitem filters "category";
       mret (must_clauses ++ [JObj {["term" := JObj {["category" := v]}]}])
     else mret must_clauses);
  must_clauses ←
    (if contains "brand" filters then
       v ← getitem filters "brand";
       mret (must_clauses ++ [JObj {["term" := JObj {["brand" := v]}]}])
     else mret must_clauses);
  must_clauses ←
    (if contains "min_rating" filters then
       v ← getitem filters "min_rating";
       mret (must_clauses ++
             [JObj {["range" := JObj {["rating" := JObj {["gte" := v]}]}]}])
     else mret must_clauses);
  mret must_clauses.

(** The dictionary built for one hit:
    [{'id': hit['_id'], 'score': hit['_score'], **hit['_source']}]. *)
Definition make_result (h : hit) : gmap string json :=
  dict_merge (<["score" := JFloat (_score h)]> (<["id" := JStr (_id h)]> ∅))
             (_source h).

(** The loop over [response['hits']['hits']]. *)
Definition process_results (response : response) : list (gmap string json) :=
  foldl (λ results h, results ++ [make_result h]) [] (hits response).

Definition keyword_query (query : string) : gmap string json :=
  {["should" :=
      JArr [JObj {["multi_match" :=
        JObj (<["query" := JStr query]>
             (<["fields" := JArr [JStr "title^3"; JStr "description^2"; JStr "tags"]]>
             (<["type" := JStr "best_fields"]>
             (<["fuzziness" := JStr "AUTO"]> ∅))))]}]]}.

Definition knn_query (query_vector : list float) (top_k : Z) : gmap string json :=
  <["field" := JStr "combined_vector"]>
  (<["query_vector" := JArr (JFloat <$> query_vector)]>
  (<["k" := JInt top_k]>
  (<["num_candidates" := JInt (top_k * 3)]> ∅))).

(** [HybridSearch.search] *)
Definition search (query : string) (top_k : Z) (semantic_weight : float)
    (filters : option (gmap string json)) : M (list (gmap string json)) :=
  query_vector ← call_encode_query query;
  let keyword_bool := keyword_query query in
  keyword_bool ←
    (if truthy filters then
       fs ← lift (_build_filters (default ∅ filters));
       mret (<["filter" := JArr fs]> keyword_bool)
     else mret keyword_bool);
  let keyword_query := JObj {["bool" := JObj keyword_bool]} in
  let knn_query := knn_query query_vector top_k in
  knn_query ←
    (if truthy filters then
       fs ← lift (_build_filters (default ∅ filters));
       mret (<["filter" := JArr fs]> knn_query)
     else mret knn_query);
  index ← get_index_name;
  response ← call_client_search {|
    req_index := index;
    req_query := Some keyword_query;
    req_knn := JObj knn_query;
    req_size := top_k;
    req__source := JObj {["excludes" := JArr [JStr "*_vector"]]};
    req_rank := Some (JObj {["rrf" :=
      JObj (<["window_size" := JInt 50]> (<["rank_constant" := JInt 20]> ∅))]})
  |};
  mret (process_results response).

End HybridSearch.

(** ** Vector search *)

Module VectorSearch.

Definition default_top_k : Z := 10.
Definition default_min_score : float := 0.5%float.

(** [VectorSearch._build_filters] *)
Definition _build_filters (filters : gmap string json) : outcome json :=
  let must_clauses : list json := [] in
  must_clauses ←
    (if contains "min_price" filters || contains "max_price" filters then
       let price : gmap string json := ∅ in
       price ←
         (if contains "min_price" filters then
            v ← getitem filters "min_price"; mret (<["gte" := v]> price)
          else mret price);
       price ←
         (if contains "max_price" filters then
            v ← getitem filters "max_price"; mret (<["lte" := v]> price)
          else mret price);
       let range_filter := JObj {["range" := JObj {["price" := JObj price]}]} in
       mret (must_clauses ++ [range_filter])
     else mret must_clauses);
  must_clauses ←
    (if contains "category" filters then
       v ← getitem filters "category";
       mret (must_clauses ++ [JObj {["term" := JObj {["category" := v]}]}])
     else mret must_clauses);
  must_clauses ←
    (if contains "brand" filters then
       v ← getitem filters "brand";
       mret (must_clauses ++ [JObj {["term" := JObj {["brand" := v]}]}])
     else mret must_clauses);
  must_clauses ←
    (if contains "min_rating" filters then
       v ← getitem filters "min_rating";
       mret (must_clauses ++
             [JObj {["range" := JObj {["rating" := JObj {["gte" := v]}]}]}])
     else mret must_clauses);
  mret (match must_clauses with
        | [] => JObj ∅
        | _ => JObj {["bool" := JObj {["must" := JArr must_clauses]}]}
        end).

(** [hit['_score'] >= min_score] on floats. *)
Definition score_ge (score min_score : float) : bool :=
  PrimFloat.leb min_score score.

Definition make_result (h : hit) : gmap string json :=
  dict_merge (<["score" := JFloat (_score h)]> (<["id" := JStr (_id h)]> ∅))
             (_source h).

(** The loop over [response['hits']['hits']], keeping the hits that reach
    the threshold. *)
Definition process_results (min_score : float) (response : response)
    : list (gmap string json) :=
  foldl (λ results h,
           if score_ge (_score h) min_score then results ++ [make_result h]
           else results)
        [] (hits response).

Definition knn_query (query_vector : list float) (top_k : Z) : gmap string json :=
  <["field" := JStr "combined_vector"]>
  (<["query_vector" := JArr (JFloat <$> query_vector)]>
  (<["k" := JInt top_k]>
  (<["num_candidates" := JInt (top_k * 2)]> ∅))).

(** [VectorSearch.search] *)
Definition search (query : string) (top_k : Z) (min_score : float)
    (filters : option (gmap string json)) : M (list (gmap string json)) :=
  query_vector ← call_encode_query query;
  let knn_query := knn_query query_vector top_k in
  knn_query ←
    (if truthy filters then
       f ← lift (_build_filters (default ∅ filters));
       mret (<["filter" := f]> knn_query)
     else mret knn_query);
  index ← get_index_name;
  response ← call_client_search {|
    req_index := index;
    req_query := None;
    req_knn := JObj knn_query;
    req_size := top_k;
    req__source := JObj {["excludes" := JArr [JStr "*_vector"]]};
    req_rank := None
  |};
  mret (process_results min_score response).

End VectorSearch.

(** ** The agent's filter clean-up *)

Module Agent.

Definition is_not_none (v : json) : bool :=
  match v with JNull => false | _ => true end.

(** [{k: v for k, v in analysis['filters'].items() if v is not None}] in
    [SearchAgent._understand_query]. *)
Definition clean_filters (filters : gmap string json) : gmap string json :=
  filter (λ kv, is_not_none kv.2) filters.

(** The search issued by [SearchAgent.chat] for the analysed query. *)
Definition chat_search (search_terms : string) (filters : gmap string json)
    : M (list (gmap string json)) :=
  HybridSearch.search search_terms 10 HybridSearch.default_semantic_weight
    (Some filters).

End Agent.

(** ** Filter translation as the specification words it *)

Module Spec.

(** The filter keys the translation knows. *)
Definition known_keys : list string :=
  ["min_price"; "max_price"; "category"; "brand"; "min_rating"].

Definition bound (op : string) (value : option json) : gmap string json :=
  match value with
  | Some v => {[op := v]}
  | None => ∅
  end.

(** One range predicate on [price] when either bound is present. *)
Definition price_range (min_price max_price : option json) : list json :=
  match min_price, max_price with
  | None, None => []
  | _, _ =>
      [JObj {["range" :=
         JObj {["price" := JObj (bound "gte" min_price ∪ bound "lte" max_price)]}]}]
  end.

Definition exact_match (field : string) (value : option json) : list json :=
  match value with
  | Some v => [JObj {["term" := JObj {[field := v]}]}]
  | None => []
  end.

Definition lower_bound (field : string) (value : option json) : list json :=
  match value with
  | Some v => [JObj {["range" := JObj {[field := JObj {["gte" := v]}]}]}]
  | None => []
  end.

(** Price range first, then category, then brand, then rating. *)
Definition translate (filters : gmap string json) : list json :=
  price_range (filters !! "min_price") (filters !! "max_price")
  ++ exact_match "category" (filters !! "category")
  ++ exact_match "brand" (filters !! "brand")
  ++ lower_bound "rating" (filters !! "min_rating").

(** Where the predicate built for a numeric filter key holds its value. *)
Definition bound_path (key : string) : list string :=
  if decide (key = "min_price") then ["range"; "price"; "gte"]
  else if decide (key = "max_price") then ["range"; "price"; "lte"]
  else ["range"; "rating"; "gte"].

Definition numeric_keys : list string :=
  ["min_price"; "max_price"; "min_rating"].

(** The wrapper the vector search puts around a non-empty predicate list. *)
Definition bool_must (predicates : list json) : json :=
  match predicates with
  | [] => JObj ∅
  | _ => JObj {["bool" := JObj {["must" := JArr predicates]}]}
  end.

End Spec.

(** ** The submitted requests in closed form *)

Module Request.

(** A sub-query with the translated filters attached when [filters] is
    truthy. *)
Definition with_filter (filters : option (gmap string json)) (clause : json)
    (sub_query : gmap string json) : gmap string json :=
  if truthy filters then <["filter" := clause]> sub_query else sub_query.

Definition source_excludes : json :=
  JObj {["excludes" := JArr [JStr "*_vector"]]}.

(** The request of [HybridSearch.search]. *)
Definition hybrid (index query : string) (query_vector : list float)
    (top_k : Z) (filters : option (gmap string json)) : search_request :=
  let clause := JArr (Spec.translate (default ∅ filters)) in
  {| req_index := index;
     req_query := Some (JObj {["bool" :=
       JObj (with_filter filters clause (HybridSearch.keyword_query query))]});
     req_knn :=
       JObj (with_filter filters clause (HybridSearch.knn_query query_vector top_k));
     req_size := top_k;
     req__source := source_excludes;
     req_rank := Some (JObj {["rrf" :=
       JObj (<["window_size" := JInt 50]> (<["rank_constant" := JInt 20]> ∅))]}) |}.

(** The request of [VectorSearch.search]. *)
Definition vector (index query : string) (query_vector : list float)
    (top_k : Z) (filters : option (gmap string json)) : search_request :=
  let clause := Spec.bool_must (Spec.translate (default ∅ filters)) in
  {| req_index := index;
     req_query := None;
     req_knn :=
       JObj (with_filter filters clause (VectorSearch.knn_query query_vector top_k));
     req_size := top_k;
     req__source := source_excludes;
     req_rank := None |}.

End Request.

(** ** Reading results *)

Module Results.

(** The number stored under ['score'] in a result. *)
Definition result_score (result : gmap string json) : option float :=
  match result !! "score" with
  | Some (JFloat s) => Some s
  | _ => None
  end.



End Results.

(** ** Sample collaborators and inputs *)

Module Sample.

Definition jacket : hit :=
  {| _id := "p1"; _score := 0.875;
     _source := <["title" := JStr "Winter jacket"]> (<["price" := JInt 80]> ∅) |}.

Definition boots : hit :=
  {| _id := "p2"; _score := 0.375;
     _source := <["title" := JStr "Hiking boots"]> (<["price" := JInt 120]> ∅) |}.


(** Both collaborators answer; the backend returns the given hits whatever
    it is asked. *)
Definition answering (found : list hit) : collaborators :=
  {| index_name := "products_vector_search";
     encode_query := λ _, Return [0.25; 0.5]%float;
     client_search := λ _, Return {| hits := found |} |}.

Definition connection_error : pyexc :=
  PyExc "ConnectionError" "embedding provider unreachable" None.

(** The embedding provider raises. *)
Definition embedding_down : collaborators :=
  {| index_name := "products_vector_search";
     encode_query := λ _, Raise connection_error;
     client_search := λ _, Return {| hits := [jacket] |} |}.

End Sample.

(** ** Further Python operations *)

Module PyOps.

(** [v[key]] for a string key: only a dict can be subscripted that way. *)
Definition subscript (v : json) (key : string) : outcome json :=
  match v with
  | JObj d => getitem d key
  | _ => Raise (PyExc "TypeError" key None)
  end.

(** [l[start:]] with Python's treatment of a negative or too large start. *)
Definition slice_from {A} (start : Z) (l : list A) : list A :=
  let len := Z.of_nat (length l) in
  let first := if start <? 0 then Z.max (start + len) 0 else Z.min start len in
  drop (Z.to_nat first) l.

(** The built-in classes that the embedded code raises itself; Python
    makes each of them a subclass of [Exception]. *)
Definition builtin_exceptions : list string :=
  ["KeyError"; "TypeError"; "AttributeError"; "IndexError"; "ValueError"].

(** The built-in classes that derive from [BaseException] without deriving
    from [Exception]. *)
Definition base_only_classes : list string :=
  ["BaseException"; "KeyboardInterrupt"; "SystemExit"; "GeneratorExit"].

(** [isinstance(e, Exception)].  Python fixes the answer for the built-in
    classes above.  For every other class, such as those of the libraries
    behind the collaborators, it is a fact of the program's class
    hierarchy, given by [derives]: whether the class of that name derives
    from [Exception]. *)
Definition is_Exception (derives : string → bool) (e : pyexc) : bool :=
  if bool_decide (exc_class e ∈ builtin_exceptions) then true
  else if bool_decide (exc_class e ∈ base_only_classes) then false
  else derives (exc_class e).

(** Truthiness of an [Optional[str]]. *)
Definition truthy_str (s : option string) : bool :=
  match s with
  | Some (String _ _) => true
  | _ => false
  end.

End PyOps.
Import PyOps.

(** ** Computations over any set of collaborators *)

Module Effects.

(** A computation reads its collaborators [W], appends the calls it
    issues to a log of events [E] and returns or raises. *)
Definition eff (W E A : Type) : Type := W → list E → outcome A * list E.

#[export] Instance eff_ret {W E} : MRet (eff W E) := λ A a _ log, (Return a, log).

#[export] Instance eff_bind {W E} : MBind (eff W E) := λ A B k m w log,
  match m w log with
  | (Return a, log') => k a w log'
  | (Raise e, log') => (Raise e, log')
  end.

Definition pure_outcome {W E A} (m : outcome A) : eff W E A :=
  λ _ log, (m, log).

Definition ask {W E A} (field : W → A) : eff W E A :=
  λ w log, (Return (field w), log).

(** One call to a collaborator, recorded as [event]. *)
Definition perform {W E A} (op : W → outcome A) (event : E) : eff W E A :=
  λ w log, (op w, log ++ [event]).

(** [try: body  except Exception as e: handler e], where [catches w e]
    tells whether [e] is an instance of [Exception]. *)
Definition try_except {W E A} (catches : W → pyexc → bool) (body : eff W E A)
    (handler : pyexc → eff W E A) : eff W E A :=
  λ w log,
    match body w log with
    | (Return a, log') => (Return a, log')
    | (Raise e, log') =>
        if catches w e then handler e w log' else (Raise e, log')
    end.

End Effects.
Import Effects.

(** ** The agent's conversation history *)

Module History.

(** One entry [{'user': ..., 'agent': ...}] of [conversation_history]. *)
Record exchange : Type := Exchange {
  user : string;
  agent : string
}.

(** The fields of [SearchAgent] that [_update_history] reads and writes. *)
Record memory : Type := Memory {
  conversation_history : list exchange;
  max_history : Z
}.

(** [SearchAgent._update_history] *)
Definition _update_history (self : memory) (user_query agent_response : string)
    : memory :=
  let history :=
    conversation_history self
    ++ [{| user := user_query; agent := agent_response |}] in
  let history :=
    if Z.of_nat (length history) >? max_history self
    then slice_from (- max_history self) history
    else history in
  {| conversation_history := history; max_history := max_history self |}.

(** [SearchAgent.reset_conversation] *)
Definition reset_conversation (self : memory) : memory :=
  {| conversation_history := []; max_history := max_history self |}.

(** A whole conversation: one update per exchange, oldest first. *)
Definition converse (self : memory) (exchanges : list exchange) : memory :=
  foldl (λ m x, _update_history m (user x) (agent x)) self exchanges.

End History.

(** ** More sample collaborators *)

Module More.

Definition timeout_error : pyexc :=
  PyExc "ConnectionTimeout" "retrieval backend timed out" None.

(** The embedding provider answers, the retrieval backend raises. *)
Definition backend_down : collaborators :=
  {| index_name := "products_vector_search";
     encode_query := λ _, Return [0.25; 0.5]%float;
     client_search := λ _, Raise timeout_error |}.

(** A hit whose document has a field called [score]. *)
Definition shadowed : hit :=
  {| _id := "p9"; _score := 0.875;
     _source := <["title" := JStr "Mug"]> (<["score" := JFloat 0.125]> ∅) |}.

End More.

(** ** A sample catalogue and indexing collaborators *)

Module Catalogue.

Definition jacket : gmap string json :=
  <["id" := JStr "p1"]>
  (<["title" := JStr "Winter jacket"]>
  (<["description" := JStr "Warm and light"]>
  (<["price" := JInt 80]> ∅))).

(** A product without identifier. *)
Definition anonymous : gmap string json :=
  <["title" := JStr "Mug"]> (<["description" := JStr "Holds coffee"]> ∅).

(** A product without description. *)
Definition terse : gmap string json :=
  <["id" := JStr "p3"]> (<["title" := JStr "Lamp"]> ∅).

Definition vector : json := JArr [JFloat 0.25; JFloat 0.5].

End Catalogue.

(** ** Explaining a match *)

Module Explain.

(** The keyword arguments of [client.explain]. *)
Record explain_request : Type := ExplainRequest {
  ex_index : string;
  ex_id : string;
  ex_query : json
}.

(** The singletons used by [explain_search]: those of the search, and the
    [explain] entry point of the Elasticsearch client. *)
Record world : Type := World {
  base : collaborators;
  client_explain : explain_request → outcome json
}.

Inductive event : Type :=
| Encode (query : string)
| ExplainCall (req : explain_request).

(** [HybridSearch.explain_search] *)
Definition explain_search (query doc_id : string) : eff world event json :=
  query_vector ← perform (λ w, encode_query (base w) query) (Encode query);
  let keyword_query :=
    JObj {["multi_match" :=
      JObj (<["query" := JStr query]>
           (<["fields" := JArr [JStr "title^3"; JStr "description^2"; JStr "tags"]]>
            ∅))]} in
  index ← ask (λ w, index_name (base w));
  let req := {| ex_index := index; ex_id := doc_id; ex_query := keyword_query |} in
  response ← perform (λ w, client_explain w req) (ExplainCall req);
  mret response.

End Explain.

(** ** Connection configuration *)

Module Config.

(** [os.getenv(name, default)] *)
Definition getenv (env : gmap string string) (name default : string) : string :=
  match env !! name with
  | Some value => value
  | None => default
  end.

Record ElasticsearchConfig : Type := {
  url : string;
  cloud_id : option string;
  api_key : option string;
  index_name : string
}.

(** [ElasticsearchConfig.__init__] on the process environment. *)
Definition __init__ (env : gmap string string) : ElasticsearchConfig :=
  {| url := getenv env "ELASTICSEARCH_URL" "http://localhost:9200";
     cloud_id := env !! "ELASTICSEARCH_CLOUD_ID";
     api_key := env !! "ELASTICSEARCH_API_KEY";
     index_name := getenv env "INDEX_NAME" "products_vector_search" |}.

(** The arguments given to the [Elasticsearch] constructor. *)
Inductive client_args : Type :=
| Cloud (cloud_id api_key : string)
| Hosts (hosts : list string) (verify_certs : bool).

(** A client, as far as [test_connection] uses it: what [info()] gives. *)
Record client : Type := Client {
  info : outcome json
}.

(** The [Elasticsearch] constructor, and which of the classes it and the
    client raise derive from [Exception]. *)
Record world : Type := World {
  connect : client_args → outcome client;
  derives_Exception : string → bool
}.

(** [isinstance(e, Exception)] in this program. *)
Definition catches (w : world) (e : pyexc) : bool :=
  is_Exception (derives_Exception w) e.

Inductive event : Type :=
| Connect (args : client_args)
| Info.

(** The constructor call chosen by [get_client]. *)
Definition chosen_args (self : ElasticsearchConfig) : client_args :=
  if truthy_str (cloud_id self) && truthy_str (api_key self) then
    Cloud (default "" (cloud_id self)) (default "" (api_key self))
  else
    Hosts [url self] false.

(** [ElasticsearchConfig.get_client] *)
Definition get_client (self : ElasticsearchConfig) : eff world event client :=
  perform (λ w, connect w (chosen_args self)) (Connect (chosen_args self)).

(** [ElasticsearchConfig.test_connection] *)
Definition test_connection (self : ElasticsearchConfig) : eff world event bool :=
  try_except catches
    (client ← get_client self;
     info ← perform (λ _, info client) Info;
     version ← pure_outcome (subscript info "version");
     number ← pure_outcome (subscript version "number");
     mret true)
    (λ e, mret false).

End Config.

(** ** Indexing *)

Module Indexer.

(** [l[idx]] on a list. *)
Definition item {A} (l : list A) (idx : nat) : outcome A :=
  match l !! idx with
  | Some x => Return x
  | None => Raise (PyExc "IndexError" "list index out of range" None)
  end.

(** A list comprehension whose element expression may raise. *)
Fixpoint comprehension {A B} (f : A → outcome B) (l : list A)
    : outcome (list B) :=
  match l with
  | [] => Return []
  | x :: rest =>
      y ← f x;
      ys ← comprehension f rest;
      mret (y :: ys)
  end.

(** The singletons used by [ProductIndexer]: the index name of
    [es_config], the embedding generator with its dimension, the
    Elasticsearch client and [helpers.bulk].  [py_str] is [str()] on the
    values that are not strings. *)
Record world : Type := World {
  index_name : string;
  embedding_dim : Z;
  encode : list json → outcome (list json);
  indices_exists : string → outcome bool;
  indices_delete : string → outcome unit;
  indices_create : string → json → outcome unit;
  bulk : list json → outcome (Z * list json);
  indices_refresh : string → outcome unit;
  py_str : json → string
}.

Inductive event : Type :=
| Encode (texts : list json)
| Exists (index : string)
| Delete (index : string)
| Create (index : string) (body : json)
| Bulk (actions : list json)
| Refresh (index : string).

Definition dense_vector (dims : Z) : json :=
  JObj (<["type" := JStr "dense_vector"]>
       (<["dims" := JInt dims]>
       (<["index" := JBool true]>
       (<["similarity" := JStr "cosine"]> ∅)))).

Definition text_field : json :=
  JObj (<["type" := JStr "text"]> (<["analyzer" := JStr "standard"]> ∅)).

Definition typed (type : string) : json := JObj {["type" := JStr type]}.

(** The body given to [indices.create]. *)
Definition index_mapping (dims : Z) : json :=
  JObj (<["settings" :=
          JObj (<["number_of_shards" := JInt 1]>
               (<["number_of_replicas" := JInt 0]>
               (<["index" :=
                   JObj (<["knn" := JBool true]>
                        (<["knn.algo_param.ef_search" := JInt 100]> ∅))]> ∅)))]>
       (<["mappings" :=
          JObj {["properties" :=
            JObj (<["id" := typed "keyword"]>
                 (<["title" := text_field]>
                 (<["description" := text_field]>
                 (<["category" := typed "keyword"]>
                 (<["brand" := typed "keyword"]>
                 (<["price" := typed "float"]>
                 (<["rating" := typed "float"]>
                 (<["tags" := typed "keyword"]>
                 (<["title_vector" := dense_vector dims]>
                 (<["description_vector" := dense_vector dims]>
                 (<["combined_vector" := dense_vector dims]> ∅)))))))))))]}]>
        ∅)).

(** [ProductIndexer.create_index] *)
Definition create_index : eff world event unit :=
  dims ← ask embedding_dim;
  let index_mapping := index_mapping dims in
  name ← ask index_name;
  present ← perform (λ w, indices_exists w name) (Exists name);
  _ ← (if present : bool then perform (λ w, indices_delete w name) (Delete name)
       else mret ());
  _ ← perform (λ w, indices_create w name index_mapping) (Create name index_mapping);
  mret ().

(** An f-string field: a string as it is, another value through [str()]. *)
Definition fstr (str : json → string) (v : json) : string :=
  match v with
  | JStr s => s
  | _ => str v
  end.

(** One turn of the loop that prepares the bulk actions. *)
Definition action (name : string) (title_vectors description_vectors
    combined_vectors : list json) (idx : nat) (product : gmap string json)
    : outcome json :=
  title_vector ← item title_vectors idx;
  description_vector ← item description_vectors idx;
  combined_vector ← item combined_vectors idx;
  let doc :=
    dict_merge product
      (<["title_vector" := title_vector]>
      (<["description_vector" := description_vector]>
      (<["combined_vector" := combined_vector]> ∅))) in
  id ← getitem product "id";
  mret (JObj (<["_index" := JStr name]>
             (<["_id" := id]>
             (<["_source" := JObj doc]> ∅)))).

(** The loop [for idx, product in enumerate(products)], from [idx] on. *)
Fixpoint actions_from (name : string) (title_vectors description_vectors
    combined_vectors : list json) (idx : nat)
    (products : list (gmap string json)) (actions : list json)
    : outcome (list json) :=
  match products with
  | [] => Return actions
  | product :: rest =>
      a ← action name title_vectors description_vectors combined_vectors
            idx product;
      actions_from name title_vectors description_vectors combined_vectors
        (S idx) rest (actions ++ [a])
  end.

(** [ProductIndexer.index_products] *)
Definition index_products (products : list (gmap string json))
    : eff world event unit :=
  str ← ask py_str;
  titles ← pure_outcome (comprehension (λ p, getitem p "title") products);
  descriptions ←
    pure_outcome (comprehension (λ p, getitem p "description") products);
  combined_texts ←
    pure_outcome (comprehension
      (λ p, title ← getitem p "title";
            description ← getitem p "description";
            mret (JStr (fstr str title +:+ ". " +:+ fstr str description)))
      products);
  title_vectors ← perform (λ w, encode w titles) (Encode titles);
  description_vectors ← perform (λ w, encode w descriptions) (Encode descriptions);
  combined_vectors ←
    perform (λ w, encode w combined_texts) (Encode combined_texts);
  name ← ask index_name;
  actions ←
    pure_outcome (actions_from name title_vectors description_vectors
                    combined_vectors 0 products []);
  '(success, failed) ← perform (λ w, bulk w actions) (Bulk actions);
  _ ← perform (λ w, indices_refresh w name) (Refresh name);
  mret ().

End Indexer.

(** ** What the indexer stores *)

Module Stored.

(** The document stored for a product: the product's fields, with the
    three vector fields set to the product's embeddings. *)
Definition doc (product : gmap string json)
    (title_vector description_vector combined_vector : json)
    : gmap string json :=
  <["title_vector" := title_vector]>
  (<["description_vector" := description_vector]>
  (<["combined_vector" := combined_vector]> product)).

(** The text embedded into [combined_vector]. *)
Definition combined_text (str : json → string) (product : gmap string json)
    : option json :=
  title ← product !! "title";
  description ← product !! "description";
  Some (JStr (Indexer.fstr str title +:+ ". " +:+ Indexer.fstr str description)).

(** The bulk action of a product. *)
Definition bulk_action (name : string) (id : json) (source : gmap string json)
    : json :=
  JObj (<["_index" := JStr name]>
       (<["_id" := id]>
       (<["_source" := JObj source]> ∅))).

(** A product that has the fields [index_products] reads. *)
Definition complete (product : gmap string json) : Prop :=
  is_Some (product !! "title")
  ∧ is_Some (product !! "description")
  ∧ is_Some (product !! "id").

(** What Elasticsearch returns as [_source] for a stored document when the
    request excludes ["*_vector"]. *)
Definition without_vectors (source : gmap string json) : gmap string json :=
  filter (λ kv, is_vector_field kv.1 = false) source.

(** The bulk calls among the events of a log. *)
Definition bulk_calls (log : list Indexer.event) : list (list json) :=
  omap (λ ev, match ev with Indexer.Bulk a => Some a | _ => None end) log.

End Stored.

(** ** Sample indexing collaborators *)

Module Bench.

(** Every text is embedded into the same vector, the index exists, and
    the bulk call reports one failed item. *)
Definition partial_failure : Indexer.world :=
  {| Indexer.index_name := "products";
     Indexer.embedding_dim := 2;
     Indexer.encode := λ texts, Return ((λ _, Catalogue.vector) <$> texts);
     Indexer.indices_exists := λ _, Return true;
     Indexer.indices_delete := λ _, Return ();
     Indexer.indices_create := λ _ _, Return ();
     Indexer.bulk := λ actions, Return (0, [JStr "rejected"]);
     Indexer.indices_refresh := λ _, Return ();
     Indexer.py_str := λ _, "" |}.

(** The encoder returns no vector at all. *)
Definition silent_encoder : Indexer.world :=
  {| Indexer.index_name := "products";
     Indexer.embedding_dim := 2;
     Indexer.encode := λ _, Return [];
     Indexer.indices_exists := λ _, Return false;
     Indexer.indices_delete := λ _, Return ();
     Indexer.indices_create := λ _ _, Return ();
     Indexer.bulk := λ actions, Return (Z.of_nat (length actions), []);
     Indexer.indices_refresh := λ _, Return ();
     Indexer.py_str := λ _, "" |}.

End Bench.

(** ** Sample connections *)

Module Net.

(** Of the classes raised here, only [asyncio.CancelledError] does not
    derive from [Exception]. *)
Definition classes (class : string) : bool :=
  negb (String.eqb class "CancelledError").

(** No client can be built: the constructor raises [ConnectionError]. *)
Definition unreachable : Config.world :=
  {| Config.connect := λ _, Raise Sample.connection_error;
     Config.derives_Exception := classes |}.

Definition cancelled : pyexc := PyExc "CancelledError" "" None.

(** The constructor is cancelled. *)
Definition interrupted : Config.world :=
  {| Config.connect := λ _, Raise cancelled;
     Config.derives_Exception := classes |}.

End Net.

(** ** The search agent *)

Module SearchAgent.

(** The collaborators of [SearchAgent]: the Gemini model (a call gives
    [response.text] or raises), [json.loads], and the searcher.  The two
    prompt templates are given by their [format]; [py_str] is [str()] on
    the values that are not strings and [unsliceable v] is what [v[:150]]
    raises for a value that is neither a string nor a list.  A character
    of a Rocq string stands for one character of a Python string. *)
Record world : Type := World {
  generate_content : string → float → option string → outcome string;
  json_loads : string → outcome json;
  searcher_search : json → Z → json → outcome (list (gmap string json));
  understanding_prompt : string → string;
  response_prompt : string → string → string → string;
  py_str : json → string;
  unsliceable : json → pyexc;
  derives_Exception : string → bool
}.

(** [isinstance(e, Exception)] in this program: [derives_Exception] tells
    it for the classes of the libraries behind the collaborators. *)
Definition catches (w : world) (e : pyexc) : bool :=
  is_Exception (derives_Exception w) e.

Inductive event : Type :=
| Generate (prompt : string) (temperature : float) (mime : option string)
| Search (query : json) (top_k : Z) (filters : json).

(** The binary64 numbers that the literals [0.1] and [0.7] denote. *)
Definition temperature_0_1 : float := 0x1.999999999999ap-4%float.
Definition temperature_0_7 : float := 0x1.6666666666666p-1%float.

(** [needle in haystack] on strings. *)
Fixpoint occurs (needle haystack : string) : bool :=
  if String.prefix needle haystack then true
  else match haystack with
       | EmptyString => false
       | String _ rest => occurs needle rest
       end.

(** [key in v] *)
Definition py_in (key : string) (v : json) : outcome bool :=
  match v with
  | JObj d => Return (contains key d)
  | JArr l =>
      Return (existsb (λ x, match x with
                            | JStr s => String.eqb s key
                            | _ => false
                            end) l)
  | JStr s => Return (occurs key s)
  | _ => Raise (PyExc "TypeError" "argument is not iterable" None)
  end.

(** [v.items()] *)
Definition items (v : json) : outcome (gmap string json) :=
  match v with
  | JObj d => Return d
  | _ => Raise (PyExc "AttributeError" "items" None)
  end.

(** [v[key] = value] for a string key. *)
Definition setitem (v : json) (key : string) (value : json) : outcome json :=
  match v with
  | JObj d => Return (JObj (<[key := value]> d))
  | _ => Raise (PyExc "TypeError" key None)
  end.

(** The analysis returned when the query could not be understood. *)
Definition fallback_analysis (query : string) : json :=
  JObj (<["search_terms" := JStr query]>
       (<["filters" := JObj ∅]>
       (<["intent" := JStr query]> ∅))).

(** The clean-up of the parsed analysis in [_understand_query]. *)
Definition clean_analysis (analysis : json) : outcome json :=
  present ← py_in "filters" analysis;
  if present : bool then
    filters ← subscript analysis "filters";
    entries ← items filters;
    setitem analysis "filters" (JObj (Agent.clean_filters entries))
  else mret analysis.

(** [SearchAgent._understand_query] *)
Definition _understand_query (query : string) : eff world event json :=
  prompt ← ask (λ w, understanding_prompt w query);
  try_except catches
    (text ← perform (λ w, generate_content w prompt temperature_0_1 (Some "application/json"))
                    (Generate prompt temperature_0_1 (Some "application/json"));
     loads ← ask json_loads;
     analysis ← pure_outcome (loads text);
     analysis ← pure_outcome (clean_analysis analysis);
     mret analysis)
    (λ e, mret (fallback_analysis query)).

Definition nl : string := String "010"%char "".

Fixpoint take_chars (n : nat) (s : string) : string :=
  match n, s with
  | S n', String c rest => String c (take_chars n' rest)
  | _, _ => EmptyString
  end.

(** [v[:n]] *)
Definition slice_to (raised : json → pyexc) (n : nat) (v : json) : outcome json :=
  match v with
  | JStr s => Return (JStr (take_chars n s))
  | JArr l => Return (JArr (take n l))
  | _ => Raise (raised v)
  end.

(** The loop that formats the results for the model, from number [idx]. *)
Fixpoint format_results (str : json → string) (raised : json → pyexc)
    (idx : nat) (results : list (gmap string json)) (results_text : string)
    : outcome string :=
  match results with
  | [] => Return results_text
  | result :: rest =>
      title ← getitem result "title";
      let results_text :=
        results_text +:+ nl +:+ pretty idx +:+ ". "
        +:+ Indexer.fstr str title +:+ nl in
      price ← getitem result "price";
      let results_text :=
        results_text +:+ "   Price: $" +:+ Indexer.fstr str price +:+ nl in
      rating ← getitem result "rating";
      let results_text :=
        results_text +:+ "   Rating: " +:+ Indexer.fstr str rating
        +:+ "/5" +:+ nl in
      description ← getitem result "description";
      short ← slice_to raised 150 description;
      let results_text :=
        results_text +:+ "   Description: " +:+ Indexer.fstr str short
        +:+ "..." +:+ nl in
      format_results str raised (S idx) rest results_text
  end.

Definition apology : string :=
  "I couldn't find any products matching your criteria. Could you try adjusting your requirements or search for something else?".

(** The answer given when the model fails. *)
Definition fallback_response (str : json → string) (user_query : string)
    (results : list (gmap string json)) : outcome string :=
  top ← Indexer.item results 0;
  title ← getitem top "title";
  price ← getitem top "price";
  mret ("I found " +:+ pretty (length results) +:+ " products that match '"
        +:+ user_query +:+ "'. The top result is " +:+ Indexer.fstr str title
        +:+ " for $" +:+ Indexer.fstr str price +:+ ".").

(** [SearchAgent._generate_response] *)
Definition _generate_response (user_query : string) (intent : json)
    (results : list (gmap string json)) : eff world event string :=
  match results with
  | [] => mret apology
  | _ =>
      str ← ask py_str;
      raised ← ask unsliceable;
      results_text ←
        pure_outcome (format_results str raised 1 (take 5 results) "");
      prompt ←
        ask (λ w, response_prompt w user_query (Indexer.fstr str intent)
                    results_text);
      try_except catches
        (perform (λ w, generate_content w prompt temperature_0_7 None)
                 (Generate prompt temperature_0_7 None))
        (λ e, pure_outcome (fallback_response str user_query results))
  end.

(** The dictionary returned by [chat]. *)
Definition chat_result (user_query : string) (intent filters : json)
    (results : list (gmap string json)) (response : string)
    : gmap string json :=
  <["query" := JStr user_query]>
  (<["intent" := intent]>
  (<["filters" := filters]>
  (<["results" := JArr (JObj <$> results)]>
  (<["response" := JStr response]>
  (<["result_count" := JInt (Z.of_nat (length results))]> ∅))))).

(** [SearchAgent.chat], with the fields of [self] it updates. *)
Definition chat (self : History.memory) (user_query : string)
    : eff world event (gmap string json * History.memory) :=
  query_analysis ← _understand_query user_query;
  intent ← pure_outcome (subscript query_analysis "intent");
  search_terms ← pure_outcome (subscript query_analysis "search_terms");
  filters ← pure_outcome (subscript query_analysis "filters");
  search_results ←
    perform (λ w, searcher_search w search_terms 10 filters)
            (Search search_terms 10 filters);
  agent_response ← _generate_response user_query intent search_results;
  let self := History._update_history self user_query agent_response in
  mret (chat_result user_query intent filters search_results agent_response,
        self).

(** The agent after a call of [chat]: its history changes only when the
    call returns. *)
Definition after_chat (self : History.memory) (user_query : string)
    (w : world) (log : list event) : History.memory :=
  match (chat self user_query w log).1 with
  | Return (_, self') => self'
  | Raise _ => self
  end.

End SearchAgent.

(** ** Sample agent collaborators *)

Module Desk.

Definition quota_error : pyexc :=
  PyExc "ResourceExhausted" "quota exceeded" None.

Definition boots : gmap string json :=
  <["id" := JStr "p2"]>
  (<["title" := JStr "Hiking boots"]>
  (<["description" := JStr "Sturdy"]>
  (<["price" := JInt 120]>
  (<["rating" := JFloat 4.5]> ∅)))).

(** [str()] on the numbers of the samples. *)
Definition show (v : json) : string :=
  match v with
  | JInt z => pretty z
  | JFloat _ => "4.5"
  | _ => ""
  end.

Definition cancelled : pyexc := PyExc "CancelledError" "" None.

(** The classes of the samples: all derive from [Exception] except
    [asyncio.CancelledError]. *)
Definition library_classes (class : string) : bool :=
  negb (String.eqb class "CancelledError").

(** The model is out of quota; the searcher returns the given results. *)
Definition model_down (found : list (gmap string json)) : SearchAgent.world :=
  {| SearchAgent.generate_content := λ _ _ _, Raise quota_error;
     SearchAgent.json_loads := λ _, Return JNull;
     SearchAgent.searcher_search := λ _ _ _, Return found;
     SearchAgent.understanding_prompt := λ q, q;
     SearchAgent.response_prompt := λ q _ r, q +:+ r;
     SearchAgent.py_str := show;
     SearchAgent.unsliceable := λ _, PyExc "TypeError" "slice" None;
     SearchAgent.derives_Exception := library_classes |}.

(** The model answers with a text that parses to the given value. *)
Definition model_says (parsed : json) : SearchAgent.world :=
  {| SearchAgent.generate_content := λ _ _ _, Return "reply";
     SearchAgent.json_loads := λ _, Return parsed;
     SearchAgent.searcher_search := λ _ _ _, Return [];
     SearchAgent.understanding_prompt := λ q, q;
     SearchAgent.response_prompt := λ q _ r, q +:+ r;
     SearchAgent.py_str := show;
     SearchAgent.unsliceable := λ _, PyExc "TypeError" "slice" None;
     SearchAgent.derives_Exception := library_classes |}.

(** The model answers, the searcher raises. *)
Definition search_down (parsed : json) : SearchAgent.world :=
  {| SearchAgent.generate_content := λ _ _ _, Return "reply";
     SearchAgent.json_loads := λ _, Return parsed;
     SearchAgent.searcher_search := λ _ _ _, Raise More.timeout_error;
     SearchAgent.understanding_prompt := λ q, q;
     SearchAgent.response_prompt := λ q _ r, q +:+ r;
     SearchAgent.py_str := show;
     SearchAgent.unsliceable := λ _, PyExc "TypeError" "slice" None;
     SearchAgent.derives_Exception := library_classes |}.

(** A reply as the prompt asks for it. *)
Definition reply : gmap string json :=
  <["search_terms" := JStr "red shoes"]>
  (<["filters" := JObj {["max_price" := JInt 30]}]>
  (<["intent" := JStr "shoes"]> ∅)).

(** A reply without filters. *)
Definition short_reply : gmap string json :=
  <["search_terms" := JStr "red shoes"]> (<["intent" := JStr "shoes"]> ∅).

Definition fresh : History.memory :=
  {| History.conversation_history := []; History.max_history := 5 |}.

End Desk.

(** ** Starting the agent *)

Module Startup.

(** What [SearchAgent.__init__] uses: the process environment, the Gemini
    client library, the constructor of the searcher, and [int()] on the
    text of an environment variable. *)
Record world : Type := World {
  env : gmap string string;
  configure : string → outcome unit;
  generative_model : string → outcome unit;
  hybrid_search : outcome unit;
  py_int : string → outcome Z
}.

Inductive event : Type :=
| Configure (api_key : string)
| GenerativeModel (name : string)
| HybridSearchNew.

Definition missing_key : pyexc :=
  PyExc "ValueError" "GEMINI_API_KEY not found in environment variables" None.

(** [SearchAgent.__init__], up to the fields kept in [History.memory]. *)
Definition __init__ : eff world event History.memory :=
  environment ← ask env;
  let api_key := environment !! "GEMINI_API_KEY" in
  if negb (truthy_str api_key) then pure_outcome (Raise missing_key)
  else
    let api_key := default "" api_key in
    _ ← perform (λ w, configure w api_key) (Configure api_key);
    let name := Config.getenv environment "AGENT_MODEL" "gemini-1.5-flash" in
    _ ← perform (λ w, generative_model w name) (GenerativeModel name);
    _ ← perform hybrid_search HybridSearchNew;
    to_int ← ask py_int;
    max_history ←
      pure_outcome (match environment !! "MAX_CONVERSATION_HISTORY" with
                    | Some text => to_int text
                    | None => Return 5
                    end);
    mret {| History.conversation_history := [];
            History.max_history := max_history |}.

End Startup.

(** * Properties *)

(** ** Filter translation *)

Section Filters.

Implicit Types (filters : gmap string json) (k : string) (v : json).

Lemma hybrid_build_filters_translate filters :
  HybridSearch._build_filters filters = Return (Spec.translate filters).
Proof.
  unfold HybridSearch._build_filters, Spec.translate, contains, getitem.
  destruct (filters !! "min_price"), (filters !! "max_price"),
    (filters !! "category"), (filters !! "brand"), (filters !! "min_rating");
    reflexivity.
Qed.

Lemma vector_build_filters_translate filters :
  VectorSearch._build_filters filters
  = Return (Spec.bool_must (Spec.translate filters)).
Proof.
  unfold VectorSearch._build_filters, Spec.translate, contains, getitem.
  destruct (filters !! "min_price"), (filters !! "max_price"),
    (filters !! "category"), (filters !! "brand"), (filters !! "min_rating");
    reflexivity.
Qed.

Lemma translate_ext filters filters' :
  (∀ k, k ∈ Spec.known_keys → filters !! k = filters' !! k) →
  Spec.translate filters = Spec.translate filters'.
Proof.
  intros Hext. unfold Spec.translate.
  rewrite !(Hext "min_price"), !(Hext "max_price"), !(Hext "category"),
    !(Hext "brand"), !(Hext "min_rating");
    [reflexivity | unfold Spec.known_keys; set_solver ..].
Qed.

Lemma translate_insert_unknown filters k v :
  k ∉ Spec.known_keys →
  Spec.translate (<[k := v]> filters) = Spec.translate filters.
Proof.
  intros Hk. apply translate_ext. intros k' Hk'.
  apply lookup_insert_ne. intros ->. contradiction.
Qed.

End Filters.

(** C5: for every FilterSet the translation returns exactly the price-range
    predicate (with [gte] for [min_price] and/or [lte] for [max_price]) when
    a price bound is present, then the category term, then the brand term,
    then the [gte] rating predicate, each only when its key is present; the
    vector search wraps the same sequence in [bool]/[must]; an unknown key
    changes nothing, and the empty FilterSet gives the empty sequence. *)
Theorem build_filters_ordered (filters : gmap string json) (k : string) (v : json) :
  k ∉ Spec.known_keys →
  HybridSearch._build_filters filters
    = Return (Spec.price_range (filters !! "min_price") (filters !! "max_price")
              ++ Spec.exact_match "category" (filters !! "category")
              ++ Spec.exact_match "brand" (filters !! "brand")
              ++ Spec.lower_bound "rating" (filters !! "min_rating"))
  ∧ VectorSearch._build_filters filters
    = Return (Spec.bool_must (Spec.translate filters))
  ∧ HybridSearch._build_filters (<[k := v]> filters)
    = HybridSearch._build_filters filters
  ∧ VectorSearch._build_filters (<[k := v]> filters)
    = VectorSearch._build_filters filters
  ∧ HybridSearch._build_filters ∅ = Return []
  ∧ VectorSearch._build_filters ∅ = Return (JObj ∅).
Proof.
  intros Hk. split; [apply hybrid_build_filters_translate |].
  split; [apply vector_build_filters_translate |].
  rewrite !hybrid_build_filters_translate, !vector_build_filters_translate.
  rewrite (translate_insert_unknown _ _ _ Hk). auto.
Qed.

Lemma build_filters_ordered_witness :
  HybridSearch._build_filters
    (<["color" := JStr "red"]>
       (<["min_rating" := JFloat 4.5]>
          (<["brand" := JStr "Acme"]>
             (<["max_price" := JInt 150]> ∅))))
  = Return
      [JObj {["range" := JObj {["price" := JObj {["lte" := JInt 150]}]}]};
       JObj {["term" := JObj {["brand" := JStr "Acme"]}]};
       JObj {["range" := JObj {["rating" := JObj {["gte" := JFloat 4.5]}]}]}].
Proof.
  pose proof (build_filters_ordered
    (<["min_rating" := JFloat 4.5]>
       (<["brand" := JStr "Acme"]> (<["max_price" := JInt 150]> ∅)))
    "color" (JStr "red")) as H.
  destruct H as (_ & _ & -> & _).
  - unfold Spec.known_keys. intros Hin.
    repeat (apply elem_of_cons in Hin as [Heq | Hin]; [discriminate Heq |]).
    inversion Hin.
  - vm_compute. reflexivity.
Defined.

(** ** Running the searches *)

Section Runs.

Implicit Types (w : collaborators) (log : list call) (query : string)
  (top_k : Z) (filters : option (gmap string json)).

Lemma hybrid_process_results_map response :
  HybridSearch.process_results response
  = HybridSearch.make_result <$> hits response.
Proof.
  unfold HybridSearch.process_results.
  enough (∀ acc, foldl (λ results h, results ++ [HybridSearch.make_result h])
                   acc (hits response)
                 = acc ++ (HybridSearch.make_result <$> hits response)) as H
    by apply (H []).
  induction (hits response) as [|h rest IH]; intros acc; simpl.
  - by rewrite app_nil_r.
  - rewrite IH. by rewrite <- app_assoc.
Qed.

Lemma vector_process_results_filter min_score response :
  VectorSearch.process_results min_score response
  = VectorSearch.make_result
      <$> filter (λ h, VectorSearch.score_ge (_score h) min_score) (hits response).
Proof.
  unfold VectorSearch.process_results.
  enough (∀ acc,
    foldl (λ results h,
             if VectorSearch.score_ge (_score h) min_score
             then results ++ [VectorSearch.make_result h] else results)
          acc (hits response)
    = acc ++ (VectorSearch.make_result
                <$> filter (λ h, VectorSearch.score_ge (_score h) min_score)
                      (hits response))) as H by apply (H []).
  induction (hits response) as [|h rest IH]; intros acc; simpl.
  - by rewrite app_nil_r.
  - rewrite IH, filter_cons.
    destruct (decide _) as [Hge|Hge];
      destruct (VectorSearch.score_ge (_score h) min_score); try done.
    simpl. by rewrite <- app_assoc.
Qed.

(** What one run of the hybrid search does, in terms of its collaborators. *)
Lemma hybrid_search_run w log query top_k semantic_weight filters :
  HybridSearch.search query top_k semantic_weight filters w log
  = match encode_query w query with
    | Raise e => (Raise e, log ++ [EncodeQuery query])
    | Return v =>
        let req := Request.hybrid (index_name w) query v top_k filters in
        (HybridSearch.process_results <$> client_search w req,
         log ++ [EncodeQuery query; ClientSearch req])
    end.
Proof.
  unfold HybridSearch.search, Request.hybrid, Request.with_filter,
    Request.source_excludes, call_encode_query, call_client_search,
    get_index_name, lift, mbind, M_bind, mret, M_ret.
  destruct (encode_query w query) as [v|e]; [|done].
  destruct (truthy filters).
  - rewrite hybrid_build_filters_translate. simpl.
    rewrite <- app_assoc. simpl.
    by destruct (client_search w _).
  - simpl. rewrite <- app_assoc. simpl.
    by destruct (client_search w _).
Qed.

(** The same for the vector search. *)
Lemma vector_search_run w log query top_k min_score filters :
  VectorSearch.search query top_k min_score filters w log
  = match encode_query w query with
    | Raise e => (Raise e, log ++ [EncodeQuery query])
    | Return v =>
        let req := Request.vector (index_name w) query v top_k filters in
        (VectorSearch.process_results min_score <$> client_search w req,
         log ++ [EncodeQuery query; ClientSearch req])
    end.
Proof.
  unfold VectorSearch.search, Request.vector, Request.with_filter,
    Request.source_excludes, call_encode_query, call_client_search,
    get_index_name, lift, mbind, M_bind, mret, M_ret.
  destruct (encode_query w query) as [v|e]; [|done].
  destruct (truthy filters).
  - rewrite vector_build_filters_translate. simpl.
    rewrite <- app_assoc. simpl.
    by destruct (client_search w _).
  - simpl. rewrite <- app_assoc. simpl.
    by destruct (client_search w _).
Qed.

Lemma backend_requests_app log log' :
  backend_requests (log ++ log') = backend_requests log ++ backend_requests log'.
Proof. apply omap_app. Qed.

Lemma embedding_calls_app log log' :
  embedding_calls (log ++ log') = embedding_calls log ++ embedding_calls log'.
Proof. apply omap_app. Qed.

End Runs.

(** ** Argument checking and failures of the embedding provider *)

(** C1, as the code behaves: the hybrid search does not inspect [top_k].
    With [top_k <= 0] it still issues the embedding call and, when that
    returns, one retrieval request whose [size] and [k] are [top_k]; the
    search then returns one result per hit, and an exception it raises is
    one raised by a collaborator. *)
Theorem search_top_k_not_validated (w : collaborators) (log : list call)
    (query : string) (top_k : Z) (semantic_weight : float)
    (filters : option (gmap string json)) :
  top_k ≤ 0 →
  let run := HybridSearch.search query top_k semantic_weight filters w log in
  embedding_calls run.2 = embedding_calls log ++ [query]
  ∧ (∀ v, encode_query w query = Return v →
       ∃ req, backend_requests run.2 = backend_requests log ++ [req]
              ∧ req_size req = top_k
              ∧ jpath ["k"] (req_knn req) = Some (JInt top_k)
              ∧ run.1 = (λ r, HybridSearch.make_result <$> hits r)
                          <$> client_search w req)
  ∧ (∀ e, run.1 = Raise e →
       encode_query w query = Raise e ∨ ∃ req, client_search w req = Raise e).
Proof.
  intros _ run. subst run. rewrite hybrid_search_run.
  destruct (encode_query w query) as [v|e0] eqn:Henc; simpl.
  - rewrite embedding_calls_app, backend_requests_app. simpl.
    split; [done|]. split.
    + intros v' [= <-].
      exists (Request.hybrid (index_name w) query v top_k filters).
      split; [reflexivity|]. split; [reflexivity|]. split.
      * unfold Request.hybrid, Request.with_filter.
        destruct (truthy filters); reflexivity.
      * destruct (client_search w _); simpl; [|done].
        by rewrite hybrid_process_results_map.
    + intros e He. right. eexists.
      destruct (client_search w _) eqn:Hc; simpl in He; [done|].
      injection He as <-. exact Hc.
  - rewrite embedding_calls_app. simpl.
    split; [done|]. split; [done|].
    intros e [= <-]. by left.
Qed.

Lemma search_top_k_not_validated_witness :
  (HybridSearch.search "jacket" 0 0.5 None (Sample.answering []) []).1
  = Return [].
Proof.
  pose proof (search_top_k_not_validated (Sample.answering []) [] "jacket" 0
                0.5 None) as H.
  destruct H as (_ & H & _); [lia|].
  destruct (H [0.25; 0.5]%float eq_refl) as (req & _ & _ & _ & ->).
  reflexivity.
Defined.

(** C1 fails as stated: with [top_k = 0] and answering collaborators the
    search returns normally after calling both of them. *)
Lemma search_top_k_zero_accepted :
  let run :=
    HybridSearch.search "jacket" 0 0.5 None (Sample.answering []) [] in
  run.1 = Return []
  ∧ embedding_calls run.2 = ["jacket"]
  ∧ length (backend_requests run.2) = 1%nat
  ∧ ¬ (∃ e, run.1 = Raise e ∧ exc_class e = "InvalidArgument").
Proof.
  simpl. repeat split.
  intros (e & He & _). vm_compute in He. discriminate He.
Qed.

(** C2, as the code behaves: when [encode_query] raises, the hybrid search
    raises that very exception, unwrapped, and the only call it has issued
    is the embedding call: no retrieval request, no keyword-only search and
    no empty result. *)
Theorem search_embedding_failure_propagates (w : collaborators)
    (log : list call) (query : string) (top_k : Z) (semantic_weight : float)
    (filters : option (gmap string json)) (e : pyexc) :
  encode_query w query = Raise e →
  let run := HybridSearch.search query top_k semantic_weight filters w log in
  run.1 = Raise e
  ∧ run.2 = log ++ [EncodeQuery query]
  ∧ backend_requests run.2 = backend_requests log.
Proof.
  intros Henc run. subst run. rewrite hybrid_search_run, Henc. simpl.
  rewrite backend_requests_app. simpl. by rewrite app_nil_r.
Qed.

Lemma search_embedding_failure_propagates_witness :
  (HybridSearch.search "jacket" 3 0.5 None Sample.embedding_down []).1
  = Raise Sample.connection_error.
Proof.
  pose proof (search_embedding_failure_propagates Sample.embedding_down []
                "jacket" 3 0.5 None Sample.connection_error eq_refl) as H.
  exact (proj1 H).
Defined.

(** C2 fails as stated: the exception that reaches the caller is the
    provider's own [ConnectionError], not a [DependencyError] wrapping it. *)
Lemma search_embedding_failure_not_wrapped :
  let run :=
    HybridSearch.search "jacket" 3 0.5 None Sample.embedding_down [] in
  run.1 = Raise Sample.connection_error
  ∧ backend_requests run.2 = []
  ∧ ¬ (∃ e, run.1 = Raise e
            ∧ exc_class e = "DependencyError"
            ∧ exc_cause e = Some Sample.connection_error).
Proof.
  simpl. repeat split.
  intros (e & He & Hcls & _). vm_compute in He.
  injection He as <-. vm_compute in Hcls. discriminate Hcls.
Qed.

(** ** Values of the filters *)

(** C3, as the code behaves: the translation does not parse or check the
    value of a numeric key.  Whatever is bound to [min_price], [max_price]
    or [min_rating], the translation returns normally and the predicate of
    that key carries the value unchanged. *)
Theorem build_filters_values_verbatim (filters : gmap string json)
    (key : string) (v : json) :
  key ∈ Spec.numeric_keys →
  filters !! key = Some v →
  ∃ predicates p,
    HybridSearch._build_filters filters = Return predicates
    ∧ p ∈ predicates
    ∧ jpath (Spec.bound_path key) p = Some v.
Proof.
  intros Hkey Hv. rewrite hybrid_build_filters_translate.
  unfold Spec.numeric_keys in Hkey.
  repeat (apply elem_of_cons in Hkey as [-> | Hkey]); [| | | inversion Hkey];
    unfold Spec.translate; rewrite Hv.
  - destruct (filters !! "max_price");
      eexists _, _; (split; [reflexivity|]); (split; [by left|]); reflexivity.
  - destruct (filters !! "min_price");
      eexists _, _; (split; [reflexivity|]); (split; [by left|]); reflexivity.
  - eexists _, (JObj {["range" := JObj {["rating" := JObj {["gte" := v]}]}]}).
    split; [reflexivity|]. split; [|reflexivity].
    rewrite !elem_of_app. right. right. right. by left.
Qed.

Lemma build_filters_values_verbatim_witness :
  ∃ predicates p,
    HybridSearch._build_filters {["min_price" := JStr "abc"]} = Return predicates
    ∧ p ∈ predicates
    ∧ jpath ["range"; "price"; "gte"] p = Some (JStr "abc").
Proof.
  apply (build_filters_values_verbatim {["min_price" := JStr "abc"]}
           "min_price" (JStr "abc")).
  - unfold Spec.numeric_keys. by left.
  - reflexivity.
Defined.

(** C3 fails as stated: [{min_price: "abc"}] is translated, not rejected. *)
Lemma build_filters_non_numeric_accepted :
  HybridSearch._build_filters {["min_price" := JStr "abc"]}
  = Return [JObj {["range" := JObj {["price" := JObj {["gte" := JStr "abc"]}]}]}]
  ∧ ¬ (∃ e, HybridSearch._build_filters {["min_price" := JStr "abc"]} = Raise e
            ∧ exc_class e = "InvalidArgument").
Proof.
  split; [reflexivity|].
  intros (e & He & _). vm_compute in He. discriminate He.
Qed.

(** C4, as the code behaves: the null-valued keys are removed by the agent
    before it calls the search.  For a FilterSet that went through that
    clean-up, a key bound to null is not in the FilterSet the search
    receives, and the predicates, like the whole search the agent issues,
    are those of the FilterSet without the key. *)
Theorem clean_filters_null_as_absent (filters : gmap string json) (k : string) :
  filters !! k = Some JNull →
  Agent.clean_filters filters !! k = None
  ∧ Agent.clean_filters filters = Agent.clean_filters (delete k filters)
  ∧ HybridSearch._build_filters (Agent.clean_filters filters)
    = HybridSearch._build_filters (Agent.clean_filters (delete k filters))
  ∧ (∀ search_terms,
       Agent.chat_search search_terms (Agent.clean_filters filters)
       = Agent.chat_search search_terms
           (Agent.clean_filters (delete k filters))).
Proof.
  intros Hk. unfold Agent.clean_filters.
  assert (filter (λ kv : string * json, Agent.is_not_none kv.2) filters !! k
          = None) as Hnone.
  { apply map_lookup_filter_None. right. intros v Hv.
    rewrite Hk in Hv. injection Hv as <-. simpl. intros []. }
  split; [exact Hnone|].
  rewrite map_filter_delete, (delete_id _ _ Hnone). done.
Qed.

Lemma clean_filters_null_as_absent_witness :
  HybridSearch._build_filters
    (Agent.clean_filters
       (<["category" := JNull]> {["max_price" := JInt 150]}))
  = HybridSearch._build_filters
      (Agent.clean_filters
         (delete "category"
            (<["category" := JNull]> {["max_price" := JInt 150]}))).
Proof.
  apply (clean_filters_null_as_absent
           (<["category" := JNull]> {["max_price" := JInt 150]}) "category").
  reflexivity.
Defined.

(** C4 fails as stated: the translation itself tests the presence of a key,
    so [{category: null}] yields a term predicate on [category] where the
    FilterSet without the key yields none. *)
Lemma build_filters_null_compared :
  HybridSearch._build_filters {["category" := JNull]}
  = Return [JObj {["term" := JObj {["category" := JNull]}]}]
  ∧ HybridSearch._build_filters (delete "category" {["category" := JNull]})
    = Return []
  ∧ HybridSearch._build_filters {["category" := JNull]}
    ≠ HybridSearch._build_filters (delete "category" {["category" := JNull]}).
Proof.
  split; [reflexivity|]. split; [reflexivity|].
  intros H. vm_compute in H. discriminate H.
Qed.

(** ** The retrieval request *)

Lemma truthy_nonempty (filters : gmap string json) :
  filters ≠ ∅ → truthy (Some filters) = true.
Proof. intros Hne. unfold truthy. by rewrite bool_decide_eq_false_2. Qed.

(** C6: for a non-empty FilterSet, the one retrieval request of the hybrid
    search carries the same predicate list, the translation of the
    FilterSet, as the [filter] of the keyword query and as the [filter] of
    the kNN query. *)
Theorem search_filters_identical (w : collaborators) (log : list call)
    (query : string) (top_k : Z) (semantic_weight : float)
    (filters : gmap string json) (v : list float) :
  filters ≠ ∅ →
  encode_query w query = Return v →
  let run :=
    HybridSearch.search query top_k semantic_weight (Some filters) w log in
  ∃ req predicates,
    backend_requests run.2 = backend_requests log ++ [req]
    ∧ HybridSearch._build_filters filters = Return predicates
    ∧ req_query req ≫= jpath ["bool"; "filter"] = Some (JArr predicates)
    ∧ jpath ["filter"] (req_knn req) = Some (JArr predicates).
Proof.
  intros Hne Henc run. subst run.
  rewrite hybrid_search_run, Henc.
  unfold Request.hybrid, Request.with_filter.
  rewrite (truthy_nonempty _ Hne). simpl.
  rewrite backend_requests_app. simpl.
  eexists _, _. split; [reflexivity|].
  split; [apply hybrid_build_filters_translate|].
  simpl. rewrite !lookup_insert_eq. done.
Qed.

Lemma search_filters_identical_witness :
  ∃ req predicates,
    backend_requests
      (HybridSearch.search "laptop programming" 3 0.5
         (Some {["max_price" := JInt 1500]}) (Sample.answering []) []).2
    = [req]
    ∧ HybridSearch._build_filters {["max_price" := JInt 1500]}
      = Return predicates
    ∧ req_query req ≫= jpath ["bool"; "filter"] = Some (JArr predicates)
    ∧ jpath ["filter"] (req_knn req) = Some (JArr predicates).
Proof.
  apply (search_filters_identical (Sample.answering []) [] "laptop programming"
           3 0.5 {["max_price" := JInt 1500]} [0.25; 0.5]%float).
  - intros H. apply (f_equal (λ m : gmap string json, m !! "max_price")) in H.
    vm_compute in H. discriminate H.
  - reflexivity.
Defined.

(** C8: when the query has been embedded, the hybrid search submits one
    retrieval request.  Its keyword query is one [multi_match] of the query
    text over title, description and tags with boosts 3, 2 and 1 and
    fuzziness [AUTO]; its kNN query searches [combined_vector] with the
    query embedding, [k = top_k] and [num_candidates = 3 * top_k]; its rank
    is RRF with window size 50 and rank constant 20. *)
Theorem search_request_shape (w : collaborators) (log : list call)
    (query : string) (top_k : Z) (semantic_weight : float)
    (filters : option (gmap string json)) (v : list float) :
  encode_query w query = Return v →
  let run := HybridSearch.search query top_k semantic_weight filters w log in
  ∃ req multi_match,
    backend_requests run.2 = backend_requests log ++ [req]
    ∧ req_query req ≫= jpath ["bool"; "should"] = Some (JArr [multi_match])
    ∧ jpath ["multi_match"; "query"] multi_match = Some (JStr query)
    ∧ field_boosts <$> jpath ["multi_match"; "fields"] multi_match
      = Some [("title", 3); ("description", 2); ("tags", 1)]
    ∧ jpath ["multi_match"; "fuzziness"] multi_match = Some (JStr "AUTO")
    ∧ jpath ["field"] (req_knn req) = Some (JStr "combined_vector")
    ∧ jpath ["query_vector"] (req_knn req) = Some (JArr (JFloat <$> v))
    ∧ jpath ["k"] (req_knn req) = Some (JInt top_k)
    ∧ jpath ["num_candidates"] (req_knn req) = Some (JInt (3 * top_k))
    ∧ req_rank req ≫= jpath ["rrf"; "window_size"] = Some (JInt 50)
    ∧ req_rank req ≫= jpath ["rrf"; "rank_constant"] = Some (JInt 20).
Proof.
  intros Henc run. subst run.
  rewrite hybrid_search_run, Henc. simpl.
  rewrite backend_requests_app. simpl.
  replace (3 * top_k) with (top_k * 3) by lia.
  eexists _, _. split; [reflexivity|].
  unfold Request.hybrid, Request.with_filter.
  destruct (truthy filters); simpl; repeat split; reflexivity.
Qed.

Lemma search_request_shape_witness :
  ∃ req,
    backend_requests
      (HybridSearch.search "winter jacket hiking" 3 0.5 None
         (Sample.answering []) []).2 = [req]
    ∧ jpath ["k"] (req_knn req) = Some (JInt 3)
    ∧ jpath ["num_candidates"] (req_knn req) = Some (JInt 9)
    ∧ req_rank req ≫= jpath ["rrf"; "window_size"] = Some (JInt 50).
Proof.
  destruct (search_request_shape (Sample.answering []) [] "winter jacket hiking"
              3 0.5 None [0.25; 0.5]%float eq_refl)
    as (req & mm & Hlog & _ & _ & _ & _ & _ & _ & Hk & Hn & Hw & _).
  exists req. repeat split; assumption.
Defined.

(** ** The results *)

Section ResultFields.

Implicit Types (h : hit) (k : string).

Lemma make_result_source h k x :
  _source h !! k = Some x → HybridSearch.make_result h !! k = Some x.
Proof.
  intros Hk. unfold HybridSearch.make_result, dict_merge.
  rewrite lookup_union_l'; [exact Hk | by rewrite Hk].
Qed.


Lemma make_result_score h :
  _source h !! "score" = None →
  HybridSearch.make_result h !! "score" = Some (JFloat (_score h)).
Proof.
  intros Hk. unfold HybridSearch.make_result, dict_merge.
  by rewrite lookup_union_r.
Qed.

Lemma make_result_vector_field h k :
  is_vector_field k = true →
  HybridSearch.make_result h !! k = _source h !! k.
Proof.
  intros Hk. unfold HybridSearch.make_result, dict_merge.
  apply lookup_union_l.
  rewrite !lookup_insert_ne; [done | by intros <- ..].
Qed.


End ResultFields.







(** ** The score threshold of the vector search *)

(** The threshold is applied to the hits: the vector search returns the
    results of exactly the hits whose [_score] reaches [min_score], in the
    order of the backend's response, and the result of such a hit shows
    that score under [score] when the hit's [_source] has no field of that
    name. *)
Lemma vector_search_min_score (w : collaborators) (log : list call)
    (query : string) (top_k : Z) (min_score : float)
    (filters : option (gmap string json)) (v : list float) (resp : response) :
  encode_query w query = Return v →
  client_search w (Request.vector (index_name w) query v top_k filters)
    = Return resp →
  let run := VectorSearch.search query top_k min_score filters w log in
  ∃ kept,
    run.1 = Return (VectorSearch.make_result <$> kept)
    ∧ Forall (λ h, PrimFloat.leb min_score (_score h) = true) kept
    ∧ (∀ h, h ∈ kept ↔
            h ∈ hits resp ∧ PrimFloat.leb min_score (_score h) = true)
    ∧ kept `sublist_of` hits resp
    ∧ Forall (λ h, _source h !! "score" = None →
                   Results.result_score (VectorSearch.make_result h)
                   = Some (_score h)) kept.
Proof.
  intros Henc Hresp run. subst run.
  rewrite vector_search_run, Henc. simpl. rewrite Hresp. simpl.
  rewrite vector_process_results_filter.
  exists (filter (λ h, VectorSearch.score_ge (_score h) min_score) (hits resp)).
  assert (∀ h, h ∈ filter (λ h, VectorSearch.score_ge (_score h) min_score)
                     (hits resp)
               ↔ h ∈ hits resp ∧ PrimFloat.leb min_score (_score h) = true)
    as Hkept.
  { intros h. rewrite list_elem_of_filter. unfold VectorSearch.score_ge.
    rewrite Is_true_true. tauto. }
  split; [reflexivity|]. split; [|split; [exact Hkept|split]].
  - apply Forall_forall. intros h Hh. by apply Hkept in Hh as [_ ?].
  - apply sublist_filter.
  - apply Forall_forall. intros h _ Hscore.
    unfold Results.result_score.
    change (VectorSearch.make_result h) with (HybridSearch.make_result h).
    by rewrite (make_result_score h Hscore).
Qed.

Lemma vector_search_min_score_witness :
  ∃ kept,
    (VectorSearch.search "gifts for coffee lovers" 3
       VectorSearch.default_min_score None
       (Sample.answering [Sample.boots; Sample.jacket]) []).1
    = Return (VectorSearch.make_result <$> kept)
    ∧ Forall (λ h, PrimFloat.leb 0.5 (_score h) = true) kept
    ∧ Sample.jacket ∈ kept
    ∧ Sample.boots ∉ kept.
Proof.
  destruct (vector_search_min_score
              (Sample.answering [Sample.boots; Sample.jacket]) []
              "gifts for coffee lovers" 3 VectorSearch.default_min_score None
              [0.25; 0.5]%float {| hits := [Sample.boots; Sample.jacket] |}
              eq_refl eq_refl)
    as (kept & Hrun & Hall & Hkept & _).
  exists kept. split; [exact Hrun|]. split; [exact Hall|]. split.
  - apply Hkept. split; [|reflexivity]. simpl. right. left.
  - intros Hin. apply Hkept in Hin as [_ Hge]. vm_compute in Hge.
    discriminate Hge.
Defined.

(** C10, at a response where the code departs from it: every result of the
    vector search should have a score of at least [min_score].  The hit
    below passes the default threshold 0.5 with [_score] 0.875, but its
    document has a field called [score]; the one result returned for it
    has the document's 0.125 under [score], below the threshold. *)
Theorem vector_search_score_shadowed :
  let run :=
    VectorSearch.search "gifts for coffee lovers" 3
      VectorSearch.default_min_score None
      (Sample.answering [More.shadowed]) [] in
  ∃ result,
    run.1 = Return [result]
    ∧ VectorSearch.default_min_score = 0.5%float
    ∧ VectorSearch.score_ge (_score More.shadowed) 0.5 = true
    ∧ result !! "score" = Some (JFloat 0.125)
    ∧ VectorSearch.score_ge 0.125 0.5 = false.
Proof.
  eexists. split; [reflexivity|]. repeat split; reflexivity.
Qed.

(** * Further properties of the code *)

(** ** Conversation history *)

Section HistoryFacts.

Import History.

Implicit Types (self : memory) (xs : list exchange).

Lemma slice_from_last_n {A} (n : nat) (l : list A) :
  (0 < n)%nat → slice_from (- Z.of_nat n) l = drop (length l - n) l.
Proof.
  intros Hn. unfold slice_from.
  destruct (Z.ltb_spec (- Z.of_nat n) 0) as [_|?]; [|lia].
  f_equal. lia.
Qed.

Lemma update_history_positive self q r :
  0 < max_history self →
  conversation_history (_update_history self q r)
  = drop (S (length (conversation_history self)) - Z.to_nat (max_history self))
      (conversation_history self ++ [{| user := q; agent := r |}]).
Proof.
  intros Hpos. unfold _update_history. simpl.
  set (h := conversation_history self ++ _).
  assert (length h = S (length (conversation_history self))) as Hlen.
  { unfold h. rewrite length_app. simpl. lia. }
  destruct (Z.gtb_spec (Z.of_nat (length h)) (max_history self)) as [Hgt|Hle].
  - replace (max_history self) with (Z.of_nat (Z.to_nat (max_history self)))
      at 1 by lia.
    rewrite slice_from_last_n by lia. by rewrite Hlen.
  - rewrite <- Hlen.
    replace (length h - Z.to_nat (max_history self))%nat with 0%nat by lia.
    done.
Qed.

End HistoryFacts.

(** X1: with a positive [max_history], [_update_history] keeps exactly the
    last [max_history] exchanges of the history extended by the new one,
    in their order, and nothing else: the older ones are dropped from the
    front.  So the new exchange is the last entry and the length is the
    smaller of the old length plus one and [max_history];
    [max_history] itself is unchanged. *)
Theorem update_history_bounded (self : History.memory) (q r : string) :
  0 < History.max_history self →
  let self' := History._update_history self q r in
  let extended :=
    History.conversation_history self
    ++ [{| History.user := q; History.agent := r |}] in
  History.conversation_history self'
    = drop (length extended - Z.to_nat (History.max_history self)) extended
  ∧ last (History.conversation_history self')
    = Some {| History.user := q; History.agent := r |}
  ∧ Z.of_nat (length (History.conversation_history self'))
    = Z.min (Z.of_nat (length (History.conversation_history self)) + 1)
            (History.max_history self)
  ∧ History.max_history self' = History.max_history self.
Proof.
  intros Hpos self' extended. subst self' extended.
  rewrite (update_history_positive _ _ _ Hpos).
  set (old := History.conversation_history self).
  set (m := History.max_history self) in *.
  split; [|split; [|split; [|reflexivity]]].
  - rewrite length_app. simpl. f_equal. lia.
  - rewrite last_lookup, length_drop, lookup_drop, length_app. simpl.
    replace (S (length old) - Z.to_nat m
             + pred (length old + 1 - (S (length old) - Z.to_nat m)))%nat
      with (length old + 0)%nat by lia.
    by rewrite lookup_app_r, Nat.add_0_r, Nat.sub_diag by lia.
  - rewrite length_drop, length_app. simpl. lia.
Qed.

Lemma update_history_bounded_witness :
  History.conversation_history
    (History._update_history
       {| History.conversation_history :=
            [{| History.user := "a"; History.agent := "1" |};
             {| History.user := "b"; History.agent := "2" |}];
          History.max_history := 2 |}
       "c" "3")
  = [{| History.user := "b"; History.agent := "2" |};
     {| History.user := "c"; History.agent := "3" |}].
Proof.
  pose proof (update_history_bounded
    {| History.conversation_history :=
         [{| History.user := "a"; History.agent := "1" |};
          {| History.user := "b"; History.agent := "2" |}];
       History.max_history := 2 |} "c" "3") as H.
  destruct H as (-> & _); [simpl; lia|]. reflexivity.
Defined.

(** X2: with [max_history = 0] nothing is ever dropped, and with a negative
    [max_history] the oldest [- max_history] entries of the extended
    history are dropped at every update: in both cases the history after
    the update is the extended history without its first [- max_history]
    entries. *)
Theorem update_history_nonpositive (self : History.memory) (q r : string) :
  History.max_history self ≤ 0 →
  History.conversation_history (History._update_history self q r)
  = drop (Z.to_nat (- History.max_history self))
      (History.conversation_history self
       ++ [{| History.user := q; History.agent := r |}]).
Proof.
  intros Hle. unfold History._update_history. simpl.
  set (h := History.conversation_history self ++ _).
  assert (0 < length h)%nat as Hlen.
  { unfold h. rewrite length_app. simpl. lia. }
  destruct (Z.gtb_spec (Z.of_nat (length h)) (History.max_history self))
    as [_|?]; [|lia].
  unfold slice_from.
  destruct (Z.ltb_spec (- History.max_history self) 0) as [?|_]; [lia|].
  destruct (Z.le_gt_cases (- History.max_history self) (Z.of_nat (length h))).
  - by rewrite Z.min_l.
  - rewrite Z.min_r, Nat2Z.id by lia.
    rewrite !drop_ge; [done | lia..].
Qed.

Lemma update_history_nonpositive_witness :
  History.conversation_history
    (History._update_history
       {| History.conversation_history :=
            [{| History.user := "a"; History.agent := "1" |}];
          History.max_history := 0 |}
       "b" "2")
  = [{| History.user := "a"; History.agent := "1" |};
     {| History.user := "b"; History.agent := "2" |}].
Proof.
  rewrite update_history_nonpositive by (simpl; lia). reflexivity.
Defined.

Lemma converse_from_empty (m : Z) (xs : list History.exchange) :
  0 < m →
  History.conversation_history
    (History.converse
       {| History.conversation_history := []; History.max_history := m |} xs)
  = drop (length xs - Z.to_nat m) xs
  ∧ History.max_history
      (History.converse
         {| History.conversation_history := []; History.max_history := m |} xs)
    = m.
Proof.
  intros Hpos. unfold History.converse.
  induction xs as [|x xs [IHh IHm]] using rev_ind; [done|].
  rewrite foldl_snoc. split; [|exact IHm].
  rewrite update_history_positive by (rewrite IHm; exact Hpos).
  rewrite IHm, IHh. destruct x as [q r]. simpl.
  rewrite length_drop, length_app. simpl.
  destruct (decide (length xs ≤ Z.to_nat m)%nat) as [Hshort|Hlong].
  - replace (length xs - Z.to_nat m)%nat with 0%nat by lia.
    simpl. f_equal. lia.
  - rewrite <- (drop_app_le xs [_]) by lia.
    rewrite drop_drop. f_equal. lia.
Qed.

(** X3: starting from an empty history with a positive [max_history], after
    any sequence of exchanges the history holds exactly the last
    [max_history] of them, in order. *)
Theorem converse_keeps_last (m : Z) (xs : list History.exchange) :
  0 < m →
  History.conversation_history
    (History.converse
       {| History.conversation_history := []; History.max_history := m |} xs)
  = drop (length xs - Z.to_nat m) xs
  ∧ History.max_history
      (History.converse
         {| History.conversation_history := []; History.max_history := m |} xs)
    = m.
Proof. apply converse_from_empty. Qed.

Lemma converse_keeps_last_witness :
  History.conversation_history
    (History.converse
       {| History.conversation_history := []; History.max_history := 2 |}
       [{| History.user := "a"; History.agent := "1" |};
        {| History.user := "b"; History.agent := "2" |};
        {| History.user := "c"; History.agent := "3" |}])
  = [{| History.user := "b"; History.agent := "2" |};
     {| History.user := "c"; History.agent := "3" |}].
Proof.
  rewrite (proj1 (converse_keeps_last 2 _ ltac:(lia))). reflexivity.
Defined.

(** ** More on the two searches *)

Section SearchFacts.

Implicit Types (w : collaborators) (log : list call) (query : string)
  (top_k : Z) (filters : option (gmap string json)).

Lemma with_filter_falsy filters clause sub_query :
  truthy filters = false →
  Request.with_filter filters clause sub_query = sub_query.
Proof. intros H. unfold Request.with_filter. by rewrite H. Qed.

Lemma translate_no_known_key (d : gmap string json) :
  (∀ k, k ∈ Spec.known_keys → d !! k = None) → Spec.translate d = [].
Proof.
  intros Hnone. unfold Spec.translate.
  rewrite !Hnone; [done | unfold Spec.known_keys; set_solver ..].
Qed.

End SearchFacts.

(** X4: once the query is embedded, the vector search submits one request
    without keyword query and without rank: a kNN query on
    [combined_vector] with the query embedding, [k = top_k] and
    [num_candidates = 2 * top_k], [size = top_k], and the vector fields
    excluded from [_source]. *)
Theorem vector_search_request_shape (w : collaborators) (log : list call)
    (query : string) (top_k : Z) (min_score : float)
    (filters : option (gmap string json)) (v : list float) :
  encode_query w query = Return v →
  let run := VectorSearch.search query top_k min_score filters w log in
  ∃ req,
    backend_requests run.2 = backend_requests log ++ [req]
    ∧ req_index req = index_name w
    ∧ req_query req = None
    ∧ req_rank req = None
    ∧ req_size req = top_k
    ∧ req__source req = JObj {["excludes" := JArr [JStr "*_vector"]]}
    ∧ jpath ["field"] (req_knn req) = Some (JStr "combined_vector")
    ∧ jpath ["query_vector"] (req_knn req) = Some (JArr (JFloat <$> v))
    ∧ jpath ["k"] (req_knn req) = Some (JInt top_k)
    ∧ jpath ["num_candidates"] (req_knn req) = Some (JInt (2 * top_k)).
Proof.
  intros Henc run. subst run.
  rewrite vector_search_run, Henc. simpl.
  rewrite backend_requests_app. simpl.
  replace (2 * top_k) with (top_k * 2) by lia.
  eexists. split; [reflexivity|].
  unfold Request.vector, Request.with_filter.
  destruct (truthy filters); simpl; repeat split; reflexivity.
Qed.

Lemma vector_search_request_shape_witness :
  ∃ req,
    backend_requests
      (VectorSearch.search "gifts for coffee lovers" 3 0.5 None
         (Sample.answering []) []).2 = [req]
    ∧ req_query req = None
    ∧ jpath ["num_candidates"] (req_knn req) = Some (JInt 6).
Proof.
  destruct (vector_search_request_shape (Sample.answering []) []
              "gifts for coffee lovers" 3 0.5 None [0.25; 0.5]%float eq_refl)
    as (req & Hlog & _ & Hq & _ & _ & _ & _ & _ & _ & Hn).
  exists req. repeat split; assumption.
Defined.

(** X5: an exception raised by the retrieval backend reaches the caller of
    the hybrid search unchanged, after exactly the embedding call and the
    one retrieval request; it is not turned into an empty result. *)
Theorem search_backend_failure_propagates (w : collaborators)
    (log : list call) (query : string) (top_k : Z) (semantic_weight : float)
    (filters : option (gmap string json)) (v : list float) (e : pyexc) :
  encode_query w query = Return v →
  client_search w (Request.hybrid (index_name w) query v top_k filters)
    = Raise e →
  let run := HybridSearch.search query top_k semantic_weight filters w log in
  run.1 = Raise e
  ∧ run.2 = log ++ [EncodeQuery query;
                    ClientSearch (Request.hybrid (index_name w) query v
                                    top_k filters)].
Proof.
  intros Henc Hfail run. subst run.
  rewrite hybrid_search_run, Henc. simpl. by rewrite Hfail.
Qed.

Lemma search_backend_failure_propagates_witness :
  (HybridSearch.search "jacket" 3 0.5 None More.backend_down []).1
  = Raise More.timeout_error.
Proof.
  apply (search_backend_failure_propagates More.backend_down [] "jacket" 3
           0.5 None [0.25; 0.5]%float More.timeout_error eq_refl eq_refl).
Defined.

(** X6: the vector search lets both failures through unchanged: when the
    embedding call raises, no retrieval request is issued; when the
    retrieval call raises, that exception reaches the caller. *)
Theorem vector_search_failures_propagate (w : collaborators)
    (log : list call) (query : string) (top_k : Z) (min_score : float)
    (filters : option (gmap string json)) (e : pyexc) :
  let run := VectorSearch.search query top_k min_score filters w log in
  (encode_query w query = Raise e →
     run.1 = Raise e ∧ run.2 = log ++ [EncodeQuery query])
  ∧ (∀ v, encode_query w query = Return v →
       client_search w (Request.vector (index_name w) query v top_k filters)
         = Raise e →
       run.1 = Raise e
       ∧ backend_requests run.2
         = backend_requests log
           ++ [Request.vector (index_name w) query v top_k filters]).
Proof.
  intros run. subst run. split.
  - intros Henc. by rewrite vector_search_run, Henc.
  - intros v Henc Hfail. rewrite vector_search_run, Henc. simpl.
    rewrite Hfail, backend_requests_app. done.
Qed.

Lemma vector_search_failures_propagate_witness :
  (VectorSearch.search "jacket" 3 0.5 None Sample.embedding_down []).1
  = Raise Sample.connection_error
  ∧ (VectorSearch.search "jacket" 3 0.5 None Sample.embedding_down []).2
    = [EncodeQuery "jacket"].
Proof.
  apply (vector_search_failures_propagate Sample.embedding_down [] "jacket" 3
           0.5 None Sample.connection_error).
  reflexivity.
Defined.

(** X7: an empty FilterSet is handled like no FilterSet: both searches
    behave exactly as with [None], and the request they submit has no
    [filter] entry in either sub-query. *)
Theorem search_empty_filters_as_none (w : collaborators) (log : list call)
    (query : string) (top_k : Z) (semantic_weight min_score : float)
    (index : string) (v : list float) :
  HybridSearch.search query top_k semantic_weight (Some ∅) w log
    = HybridSearch.search query top_k semantic_weight None w log
  ∧ VectorSearch.search query top_k min_score (Some ∅) w log
    = VectorSearch.search query top_k min_score None w log
  ∧ req_query (Request.hybrid index query v top_k (Some ∅))
      ≫= jpath ["bool"; "filter"] = None
  ∧ jpath ["filter"] (req_knn (Request.hybrid index query v top_k (Some ∅)))
    = None
  ∧ jpath ["filter"] (req_knn (Request.vector index query v top_k (Some ∅)))
    = None.
Proof.
  rewrite !hybrid_search_run, !vector_search_run.
  repeat split; reflexivity.
Qed.

(** X8: the argument [semantic_weight] has no effect on the hybrid search:
    the calls issued and the outcome are the same for any two weights. *)
Theorem search_ignores_semantic_weight (w : collaborators) (log : list call)
    (query : string) (top_k : Z) (weight weight' : float)
    (filters : option (gmap string json)) :
  HybridSearch.search query top_k weight filters w log
  = HybridSearch.search query top_k weight' filters w log.
Proof. by rewrite !hybrid_search_run. Qed.

(** X9: a non-empty FilterSet without any known key still attaches a
    filter.  Both translations return an empty result for it, and once the
    query is embedded the request of the hybrid search carries the empty
    list as [filter] of both sub-queries, the request of the vector search
    the empty object as [filter] of its kNN query. *)
Theorem search_unknown_keys_empty_filter (w : collaborators) (log : list call)
    (query : string) (top_k : Z) (semantic_weight min_score : float)
    (filters : gmap string json) (v : list float) :
  filters ≠ ∅ →
  (∀ k, k ∈ Spec.known_keys → filters !! k = None) →
  encode_query w query = Return v →
  HybridSearch._build_filters filters = Return []
  ∧ VectorSearch._build_filters filters = Return (JObj ∅)
  ∧ (∃ req,
       backend_requests
         (HybridSearch.search query top_k semantic_weight (Some filters) w log).2
         = backend_requests log ++ [req]
       ∧ req_query req ≫= jpath ["bool"; "filter"] = Some (JArr [])
       ∧ jpath ["filter"] (req_knn req) = Some (JArr []))
  ∧ (∃ req,
       backend_requests
         (VectorSearch.search query top_k min_score (Some filters) w log).2
         = backend_requests log ++ [req]
       ∧ jpath ["filter"] (req_knn req) = Some (JObj ∅)).
Proof.
  intros Hne Hunknown Henc.
  rewrite hybrid_build_filters_translate, vector_build_filters_translate.
  rewrite (translate_no_known_key _ Hunknown).
  split; [reflexivity|]. split; [reflexivity|].
  rewrite hybrid_search_run, vector_search_run, Henc. cbn [snd].
  rewrite !backend_requests_app. simpl.
  unfold Request.hybrid, Request.vector, Request.with_filter.
  rewrite (truthy_nonempty _ Hne). simpl.
  rewrite (translate_no_known_key _ Hunknown). simpl.
  split; eexists; (split; [reflexivity|]); simpl;
    rewrite !lookup_insert_eq; done.
Qed.

Lemma search_unknown_keys_empty_filter_witness :
  ∃ req,
    backend_requests
      (VectorSearch.search "red shoes" 3 0.5
         (Some {["color" := JStr "red"]}) (Sample.answering []) []).2
    = [req]
    ∧ jpath ["filter"] (req_knn req) = Some (JObj ∅).
Proof.
  destruct (search_unknown_keys_empty_filter (Sample.answering []) []
              "red shoes" 3 0.5 0.5 {["color" := JStr "red"]}
              [0.25; 0.5]%float) as (_ & _ & _ & Hvector).
  - intros H. apply (f_equal (λ m : gmap string json, m !! "color")) in H.
    vm_compute in H. discriminate H.
  - intros k Hk. unfold Spec.known_keys in Hk.
    repeat (apply elem_of_cons in Hk as [-> | Hk]; [reflexivity|]).
    inversion Hk.
  - reflexivity.
  - exact Hvector.
Defined.

(** X10: whatever the collaborators do, one run of either search extends
    the log by the embedding call followed by at most one retrieval
    request. *)
Theorem search_calls_in_order (w : collaborators) (log : list call)
    (query : string) (top_k : Z) (semantic_weight min_score : float)
    (filters : option (gmap string json)) :
  (∃ rest,
     (HybridSearch.search query top_k semantic_weight filters w log).2
       = log ++ EncodeQuery query :: rest
     ∧ (rest = [] ∨ ∃ req, rest = [ClientSearch req]))
  ∧ (∃ rest,
     (VectorSearch.search query top_k min_score filters w log).2
       = log ++ EncodeQuery query :: rest
     ∧ (rest = [] ∨ ∃ req, rest = [ClientSearch req])).
Proof.
  rewrite hybrid_search_run, vector_search_run.
  destruct (encode_query w query); simpl; split; eauto.
Qed.

(** ** Explaining a match *)

Lemma explain_search_run (w : Explain.world) (log : list Explain.event)
    (query doc_id : string) :
  Explain.explain_search query doc_id w log
  = match encode_query (Explain.base w) query with
    | Raise e => (Raise e, log ++ [Explain.Encode query])
    | Return _ =>
        let req :=
          {| Explain.ex_index := index_name (Explain.base w);
             Explain.ex_id := doc_id;
             Explain.ex_query :=
               JObj {["multi_match" :=
                 JObj (<["query" := JStr query]>
                      (<["fields" := JArr [JStr "title^3"; JStr "description^2";
                                           JStr "tags"]]> ∅))]} |} in
        (Explain.client_explain w req,
         log ++ [Explain.Encode query; Explain.ExplainCall req])
    end.
Proof.
  unfold Explain.explain_search, perform, ask, mbind, eff_bind, mret, eff_ret.
  destruct (encode_query (Explain.base w) query) as [v|e]; [|done].
  simpl. rewrite <- app_assoc. simpl.
  by destruct (Explain.client_explain w _).
Qed.

(** X11: [explain_search] embeds the query before anything else although
    the explain request does not use the embedding: when [encode_query]
    raises, [explain_search] raises the same exception and no explain
    request is issued. *)
Theorem explain_search_needs_embedding (w : Explain.world)
    (log : list Explain.event) (query doc_id : string) (e : pyexc) :
  encode_query (Explain.base w) query = Raise e →
  Explain.explain_search query doc_id w log
  = (Raise e, log ++ [Explain.Encode query]).
Proof. intros Henc. by rewrite explain_search_run, Henc. Qed.

Lemma explain_search_needs_embedding_witness :
  Explain.explain_search "jacket" "p1"
    {| Explain.base := Sample.embedding_down;
       Explain.client_explain := λ _, Return (JObj ∅) |} []
  = (Raise Sample.connection_error, [Explain.Encode "jacket"]).
Proof.
  apply (explain_search_needs_embedding
           {| Explain.base := Sample.embedding_down;
              Explain.client_explain := λ _, Return (JObj ∅) |}
           [] "jacket" "p1" Sample.connection_error eq_refl).
Defined.

(** X12: once the query is embedded, [explain_search] issues one explain
    request for the given document on the configured index, whatever the
    embedding is, and hands back what the client returns or raises.  The
    explained query matches the query text over title, description and
    tags with boosts 3, 2 and 1, as the search does, but without
    fuzziness. *)
Theorem explain_search_request (w : Explain.world) (log : list Explain.event)
    (query doc_id : string) (v : list float) :
  encode_query (Explain.base w) query = Return v →
  let run := Explain.explain_search query doc_id w log in
  ∃ req,
    run = (Explain.client_explain w req,
           log ++ [Explain.Encode query; Explain.ExplainCall req])
    ∧ Explain.ex_index req = index_name (Explain.base w)
    ∧ Explain.ex_id req = doc_id
    ∧ jpath ["multi_match"; "query"] (Explain.ex_query req) = Some (JStr query)
    ∧ field_boosts <$> jpath ["multi_match"; "fields"] (Explain.ex_query req)
      = Some [("title", 3); ("description", 2); ("tags", 1)]
    ∧ jpath ["multi_match"; "fuzziness"] (Explain.ex_query req) = None.
Proof.
  intros Henc run. subst run. rewrite explain_search_run, Henc. simpl.
  eexists. split; [reflexivity|]. repeat split; reflexivity.
Qed.

Lemma explain_search_request_witness :
  ∃ req,
    Explain.explain_search "jacket" "p1"
      {| Explain.base := Sample.answering [];
         Explain.client_explain := λ _, Return (JObj {["matched" := JBool true]}) |}
      []
    = (Return (JObj {["matched" := JBool true]}),
       [Explain.Encode "jacket"; Explain.ExplainCall req])
    ∧ Explain.ex_id req = "p1".
Proof.
  destruct (explain_search_request
              {| Explain.base := Sample.answering [];
                 Explain.client_explain :=
                   λ _, Return (JObj {["matched" := JBool true]}) |}
              [] "jacket" "p1" [0.25; 0.5]%float eq_refl)
    as (req & Hrun & _ & Hid & _).
  exists req. split; [exact Hrun | exact Hid].
Defined.

(** ** Connection configuration *)

(** X13: [get_client] connects to Elastic Cloud exactly when both
    [ELASTICSEARCH_CLOUD_ID] and [ELASTICSEARCH_API_KEY] are set to
    non-empty strings, with those two values.  In every other case, also
    when only one of the two is set, it connects to the single host
    [ELASTICSEARCH_URL] (by default [http://localhost:9200]) with
    certificate verification switched off. *)
Theorem get_client_cloud_or_local (env : gmap string string)
    (w : Config.world) (log : list Config.event) :
  let self := Config.__init__ env in
  ∃ args,
    Config.get_client self w log
    = (Config.connect w args, log ++ [Config.Connect args])
    ∧ (∀ c k, args = Config.Cloud c k ↔
              env !! "ELASTICSEARCH_CLOUD_ID" = Some c
              ∧ env !! "ELASTICSEARCH_API_KEY" = Some k
              ∧ c ≠ "" ∧ k ≠ "")
    ∧ ((env !! "ELASTICSEARCH_CLOUD_ID" = None
        ∨ env !! "ELASTICSEARCH_CLOUD_ID" = Some ""
        ∨ env !! "ELASTICSEARCH_API_KEY" = None
        ∨ env !! "ELASTICSEARCH_API_KEY" = Some "") →
       args = Config.Hosts
                [default "http://localhost:9200" (env !! "ELASTICSEARCH_URL")]
                false).
Proof.
  intros self. subst self. exists (Config.chosen_args (Config.__init__ env)).
  split; [reflexivity|].
  unfold Config.chosen_args, Config.__init__, Config.getenv. simpl.
  destruct (env !! "ELASTICSEARCH_CLOUD_ID") as [[|a c]|],
    (env !! "ELASTICSEARCH_API_KEY") as [[|b k]|]; simpl;
    (split; [intros c' k'; split; [intros H; try discriminate H
                                  | intros (H1 & H2 & H3 & H4); congruence]
            | intros [H|[H|[H|H]]]; try discriminate H;
              by destruct (env !! "ELASTICSEARCH_URL")]).
  injection H as <- <-. done.
Qed.

Lemma get_client_cloud_or_local_witness :
  (Config.get_client
     (Config.__init__ {["ELASTICSEARCH_CLOUD_ID" := "deployment:abc"]})
     Net.unreachable []).2
  = [Config.Connect (Config.Hosts ["http://localhost:9200"] false)].
Proof.
  destruct (get_client_cloud_or_local
              {["ELASTICSEARCH_CLOUD_ID" := "deployment:abc"]}
              Net.unreachable [])
    as (args & Hrun & _ & Hlocal).
  rewrite Hrun, Hlocal; [reflexivity|].
  right. right. left. reflexivity.
Defined.

Lemma version_number_path (answer : json) :
  let read := version ← subscript answer "version"; subscript version "number" in
  (∃ number, read = Return number
             ∧ jpath ["version"; "number"] answer = Some number)
  ∨ (∃ e, read = Raise e ∧ (∀ derives, is_Exception derives e = true)
          ∧ jpath ["version"; "number"] answer = None).
Proof.
  destruct answer as [| | | | | |d]; simpl; try (right; eexists; by eauto).
  unfold getitem. destruct (d !! "version") as [version|]; simpl;
    [|right; eexists; by eauto].
  destruct version as [| | | | | |dv]; simpl; try (right; eexists; by eauto).
  unfold getitem. destruct (dv !! "number") as [number|]; simpl;
    [left | right]; eexists; by eauto.
Qed.

(** What one run of [test_connection] does. *)
Lemma test_connection_run (self : Config.ElasticsearchConfig)
    (w : Config.world) (log : list Config.event) :
  let args := Config.chosen_args self in
  let caught (e : pyexc) : outcome bool :=
    if Config.catches w e then Return false else Raise e in
  Config.test_connection self w log
  = match Config.connect w args with
    | Raise e => (caught e, log ++ [Config.Connect args])
    | Return client =>
        (match Config.info client with
         | Raise e => caught e
         | Return answer =>
             Return (bool_decide (is_Some (jpath ["version"; "number"] answer)))
         end,
         log ++ [Config.Connect args; Config.Info])
    end.
Proof.
  intros args caught. subst args caught.
  unfold Config.test_connection, Config.get_client, try_except, perform,
    pure_outcome, mbind, eff_bind, mret, eff_ret.
  destruct (Config.connect w _) as [client|e]; simpl;
    [|by destruct (Config.catches w e)].
  rewrite <- app_assoc. simpl.
  destruct (Config.info client) as [answer|e]; simpl;
    [|by destruct (Config.catches w e)].
  destruct (version_number_path answer)
    as [(n & Hread & Hpath)|(e & Hread & He & Hpath)];
    simpl in Hread, Hpath; rewrite Hpath.
  - destruct (subscript answer "version") as [ver|]; simpl in *; [|done].
    by rewrite Hread.
  - unfold Config.catches.
    destruct (subscript answer "version") as [ver|]; simpl in *.
    + by rewrite Hread, He.
    + injection Hread as <-. by rewrite He.
Qed.

(** X14: [test_connection] never lets an instance of [Exception] escape.
    It returns [True] exactly when the client could be built, [info()]
    returned and the answer holds [version] with a [number].  When the
    constructor or [info()] raises, the result is [False] if the exception
    is an instance of [Exception]; any other exception, such as a
    [KeyboardInterrupt], reaches the caller unchanged. *)
Theorem test_connection_total (self : Config.ElasticsearchConfig)
    (w : Config.world) (log : list Config.event) :
  let run := Config.test_connection self w log in
  let fails (e : pyexc) :=
    Config.connect w (Config.chosen_args self) = Raise e
    ∨ ∃ client, Config.connect w (Config.chosen_args self) = Return client
                ∧ Config.info client = Raise e in
  (∀ e, run.1 = Raise e → Config.catches w e = false ∧ fails e)
  ∧ (run.1 = Return true ↔
     ∃ client answer number,
       Config.connect w (Config.chosen_args self) = Return client
       ∧ Config.info client = Return answer
       ∧ jpath ["version"; "number"] answer = Some number)
  ∧ (∀ e, fails e →
       run.1 = if Config.catches w e then Return false else Raise e).
Proof.
  intros run fails. subst run fails. rewrite test_connection_run.
  destruct (Config.connect w _) as [client|e0] eqn:Hc; cbn [fst].
  - destruct (Config.info client) as [answer|e1] eqn:Hi.
    + split; [intros e He; discriminate He|]. split.
      * split.
        -- intros [= Hsome]. apply bool_decide_eq_true in Hsome as [n Hn].
           by exists client, answer, n.
        -- intros (c & a & n & [= <-] & Ha & Hn).
           rewrite Hi in Ha. injection Ha as <-. by rewrite Hn.
      * intros e [H|(c & [= <-] & H)]; [discriminate H|].
        rewrite Hi in H. discriminate H.
    + split; [|split].
      * intros e He. destruct (Config.catches w e1) eqn:He1;
          [discriminate He|]. injection He as <-.
        split; [exact He1|]. right. by exists client.
      * split.
        -- intros H. by destruct (Config.catches w e1).
        -- intros (c & a & n & [= <-] & Ha & _).
           rewrite Hi in Ha. discriminate Ha.
      * intros e [H|(c & [= <-] & H)]; [discriminate H|].
        rewrite Hi in H. by injection H as <-.
  - split; [|split].
    + intros e He. destruct (Config.catches w e0) eqn:He0;
        [discriminate He|]. injection He as <-.
      split; [exact He0 | by left].
    + split.
      * intros H. by destruct (Config.catches w e0).
      * intros (c & a & n & H & _). discriminate H.
    + intros e [[= <-]|(c & H & _)]; [done | discriminate H].
Qed.

Lemma test_connection_total_witness :
  (Config.test_connection (Config.__init__ ∅) Net.unreachable []).1
    = Return false
  ∧ (Config.test_connection (Config.__init__ ∅) Net.interrupted []).1
    = Raise Net.cancelled.
Proof.
  split.
  - destruct (test_connection_total (Config.__init__ ∅) Net.unreachable [])
      as (_ & _ & Hfails).
    rewrite (Hfails Sample.connection_error); [reflexivity|].
    left. reflexivity.
  - destruct (test_connection_total (Config.__init__ ∅) Net.interrupted [])
      as (_ & _ & Hfails).
    rewrite (Hfails Net.cancelled); [reflexivity|].
    left. reflexivity.
Defined.

(** ** Index creation *)

(** X15: [create_index] first asks whether the index exists.  Only when it
    does, the index is deleted, and the creation, with the mapping for the
    configured embedding dimension, comes last: if the existence check or
    the deletion raises, nothing is created and the exception reaches the
    caller. *)
Theorem create_index_steps (w : Indexer.world) (log : list Indexer.event) :
  let name := Indexer.index_name w in
  let body := Indexer.index_mapping (Indexer.embedding_dim w) in
  let created := (λ _, ()) <$> Indexer.indices_create w name body in
  Indexer.create_index w log
  = match Indexer.indices_exists w name with
    | Raise e => (Raise e, log ++ [Indexer.Exists name])
    | Return false =>
        (created, log ++ [Indexer.Exists name; Indexer.Create name body])
    | Return true =>
        match Indexer.indices_delete w name with
        | Raise e =>
            (Raise e, log ++ [Indexer.Exists name; Indexer.Delete name])
        | Return _ =>
            (created,
             log ++ [Indexer.Exists name; Indexer.Delete name;
                     Indexer.Create name body])
        end
    end.
Proof.
  intros name body created. subst name body created.
  unfold Indexer.create_index, perform, ask, mbind, eff_bind, mret, eff_ret.
  destruct (Indexer.indices_exists w _) as [[|]|e]; [| |done].
  - destruct (Indexer.indices_delete w _) as [[]|e];
      rewrite <- !app_assoc; simpl; [|done].
    by destruct (Indexer.indices_create w _ _) as [[]|].
  - simpl. rewrite <- !app_assoc. simpl.
    by destruct (Indexer.indices_create w _ _) as [[]|].
Qed.

(** X16: the field that both searches query with kNN is declared by
    [create_index] as an indexed dense vector with cosine similarity and
    the embedding dimension, like the two other vector fields; every field
    the filters compare ([price], [category], [brand], [rating]) is
    declared as well. *)
Theorem index_mapping_serves_search (dims top_k : Z) (v : list float) :
  (∃ field,
     jpath ["field"] (JObj (HybridSearch.knn_query v top_k)) = Some (JStr field)
     ∧ jpath ["field"] (JObj (VectorSearch.knn_query v top_k)) = Some (JStr field)
     ∧ jpath ["mappings"; "properties"; field] (Indexer.index_mapping dims)
       = Some (Indexer.dense_vector dims))
  ∧ Forall (λ field,
      jpath ["mappings"; "properties"; field; "type"] (Indexer.index_mapping dims)
        = Some (JStr "dense_vector")
      ∧ jpath ["mappings"; "properties"; field; "dims"] (Indexer.index_mapping dims)
        = Some (JInt dims)
      ∧ jpath ["mappings"; "properties"; field; "similarity"]
          (Indexer.index_mapping dims) = Some (JStr "cosine")
      ∧ is_vector_field field = true)
      ["title_vector"; "description_vector"; "combined_vector"]
  ∧ Forall (λ field,
      is_Some (jpath ["mappings"; "properties"; field] (Indexer.index_mapping dims)))
      ["price"; "category"; "brand"; "rating"].
Proof.
  split; [exists "combined_vector"; repeat split; reflexivity|].
  split; repeat constructor; by eexists.
Qed.

(** ** Indexing products *)

Section IndexProducts.

Implicit Types (products : list (gmap string json)) (w : Indexer.world)
  (log : list Indexer.event).

Lemma comprehension_getitem key products :
  Forall (λ p, is_Some (p !! key)) products →
  Indexer.comprehension (λ p, getitem p key) products
  = Return (omap (λ p, p !! key) products).
Proof.
  induction 1 as [|p rest [x Hx] _ IH]; [done|].
  simpl. rewrite IH. unfold getitem. by rewrite Hx.
Qed.

Lemma comprehension_getitem_missing key products :
  Exists (λ p, p !! key = None) products →
  Indexer.comprehension (λ p, getitem p key) products
  = Raise (PyExc "KeyError" key None).
Proof.
  induction 1 as [p rest Hp|p rest _ IH]; simpl.
  - unfold getitem. by rewrite Hp.
  - rewrite IH. unfold getitem. by destruct (p !! key).
Qed.

Lemma comprehension_combined str products :
  Forall (λ p, is_Some (p !! "title") ∧ is_Some (p !! "description")) products →
  Indexer.comprehension
    (λ p, title ← getitem p "title";
          description ← getitem p "description";
          mret (JStr (Indexer.fstr str title +:+ ". "
                      +:+ Indexer.fstr str description)))
    products
  = Return (omap (Stored.combined_text str) products).
Proof.
  induction 1 as [|p rest [[t Ht] [d Hd]] _ IH]; [done|].
  simpl. rewrite IH. unfold getitem, Stored.combined_text.
  by rewrite Ht, Hd.
Qed.

Lemma stored_doc_merge (product : gmap string json) (tv dv cv : json) :
  dict_merge product
    (<["title_vector" := tv]>
    (<["description_vector" := dv]> (<["combined_vector" := cv]> ∅)))
  = Stored.doc product tv dv cv.
Proof.
  unfold dict_merge, Stored.doc.
  rewrite !insert_union_singleton_l, <- !(assoc_L (∪)).
  by rewrite (left_id_L ∅ (∪)).
Qed.

(** The loop over the products, when every action can be built. *)
Lemma actions_from_complete name tvs dvs cvs products :
  ∀ idx acc,
    Forall (λ p, is_Some (p !! "id")) products →
    (idx + length products ≤ length tvs)%nat →
    (idx + length products ≤ length dvs)%nat →
    (idx + length products ≤ length cvs)%nat →
    ∃ new,
      Indexer.actions_from name tvs dvs cvs idx products acc
        = Return (acc ++ new)
      ∧ length new = length products
      ∧ ∀ i p, products !! i = Some p →
          ∃ id tv dv cv,
            p !! "id" = Some id
            ∧ tvs !! (idx + i)%nat = Some tv
            ∧ dvs !! (idx + i)%nat = Some dv
            ∧ cvs !! (idx + i)%nat = Some cv
            ∧ new !! i
              = Some (Stored.bulk_action name id (Stored.doc p tv dv cv)).
Proof.
  induction products as [|p rest IH]; intros idx acc Hid Ht Hd Hc.
  - exists []. simpl. rewrite app_nil_r. split; [done|]. split; [done|].
    intros i p Hp. discriminate Hp.
  - simpl in Ht, Hd, Hc. apply Forall_cons in Hid as [[id Hp] Hid].
    destruct (lookup_lt_is_Some_2 tvs idx) as [tv Htv]; [lia|].
    destruct (lookup_lt_is_Some_2 dvs idx) as [dv Hdv]; [lia|].
    destruct (lookup_lt_is_Some_2 cvs idx) as [cv Hcv]; [lia|].
    destruct (IH (S idx)
                (acc ++ [Stored.bulk_action name id (Stored.doc p tv dv cv)])
                Hid) as (new & Hrun & Hlen & Hnew); [lia..|].
    exists (Stored.bulk_action name id (Stored.doc p tv dv cv) :: new).
    split; [|split].
    + simpl. unfold Indexer.action, Indexer.item, getitem.
      rewrite Htv, Hdv, Hcv, Hp. simpl.
      rewrite stored_doc_merge. fold (Stored.bulk_action name id
                                        (Stored.doc p tv dv cv)).
      rewrite Hrun. by rewrite <- app_assoc.
    + simpl. by rewrite Hlen.
    + intros [|i] q Hq; simpl in Hq.
      * injection Hq as <-. exists id, tv, dv, cv.
        rewrite Nat.add_0_r. done.
      * destruct (Hnew i q Hq) as (id' & tv' & dv' & cv' & H).
        exists id', tv', dv', cv'.
        by replace (idx + S i)%nat with (S idx + i)%nat by lia.
Qed.

(** Whatever the loop meets, it returns one action per product or raises. *)
Lemma actions_from_length name tvs dvs cvs products :
  ∀ idx acc actions,
    Indexer.actions_from name tvs dvs cvs idx products acc = Return actions →
    length actions = (length acc + length products)%nat.
Proof.
  induction products as [|p rest IH]; intros idx acc actions Hrun;
    simpl in Hrun.
  - injection Hrun as <-. simpl. lia.
  - destruct (Indexer.action name tvs dvs cvs idx p) as [a|e];
      simpl in Hrun; [|discriminate Hrun].
    apply IH in Hrun. rewrite length_app in Hrun. simpl in *. lia.
Qed.

End IndexProducts.

Section IndexProductsRuns.

Implicit Types (products : list (gmap string json)) (w : Indexer.world)
  (log : list Indexer.event).

(** One run of [index_products] when its three comprehensions return. *)
Lemma index_products_run w log products titles descriptions combined_texts :
  Indexer.comprehension (λ p, getitem p "title") products = Return titles →
  Indexer.comprehension (λ p, getitem p "description") products
    = Return descriptions →
  Indexer.comprehension
    (λ p, title ← getitem p "title";
          description ← getitem p "description";
          mret (JStr (Indexer.fstr (Indexer.py_str w) title +:+ ". "
                      +:+ Indexer.fstr (Indexer.py_str w) description)))
    products = Return combined_texts →
  let name := Indexer.index_name w in
  let encoded := [Indexer.Encode titles; Indexer.Encode descriptions;
                  Indexer.Encode combined_texts] in
  Indexer.index_products products w log
  = match Indexer.encode w titles with
    | Raise e => (Raise e, log ++ [Indexer.Encode titles])
    | Return tvs =>
    match Indexer.encode w descriptions with
    | Raise e =>
        (Raise e, log ++ [Indexer.Encode titles; Indexer.Encode descriptions])
    | Return dvs =>
    match Indexer.encode w combined_texts with
    | Raise e => (Raise e, log ++ encoded)
    | Return cvs =>
    match Indexer.actions_from name tvs dvs cvs 0 products [] with
    | Raise e => (Raise e, log ++ encoded)
    | Return actions =>
    match Indexer.bulk w actions with
    | Raise e => (Raise e, log ++ encoded ++ [Indexer.Bulk actions])
    | Return _ =>
        (Indexer.indices_refresh w name,
         log ++ encoded ++ [Indexer.Bulk actions; Indexer.Refresh name])
    end end end end end.
Proof.
  intros Ht Hd Hc name encoded. subst name encoded.
  unfold Indexer.index_products, perform, ask, pure_outcome,
    mbind, eff_bind, mret, eff_ret.
  unfold mbind, mret in Hc.
  rewrite Ht, Hd, Hc.
  destruct (Indexer.encode w titles) as [tvs|e]; [|done].
  destruct (Indexer.encode w descriptions) as [dvs|e];
    rewrite <- ?app_assoc; simpl; [|done].
  destruct (Indexer.encode w combined_texts) as [cvs|e];
    rewrite <- ?app_assoc; simpl; [|done].
  destruct (Indexer.actions_from _ _ _ _ _ _ _) as [actions|e]; [|done].
  destruct (Indexer.bulk w actions) as [[success failed]|e];
    rewrite <- ?app_assoc; simpl; [|done].
  by destruct (Indexer.indices_refresh w _) as [[]|].
Qed.

Lemma actions_from_ids name tvs dvs cvs products :
  ∀ idx acc actions,
    Indexer.actions_from name tvs dvs cvs idx products acc = Return actions →
    Forall (λ p, is_Some (p !! "id")) products.
Proof.
  induction products as [|p rest IH]; intros idx acc actions Hrun; [done|].
  simpl in Hrun.
  destruct (Indexer.action name tvs dvs cvs idx p) as [a|e] eqn:Ha;
    simpl in Hrun; [|discriminate Hrun].
  constructor; [|by eapply IH].
  unfold Indexer.action in Ha.
  destruct (Indexer.item tvs idx); simpl in Ha; [|discriminate Ha].
  destruct (Indexer.item dvs idx); simpl in Ha; [|discriminate Ha].
  destruct (Indexer.item cvs idx); simpl in Ha; [|discriminate Ha].
  unfold getitem in Ha. by destruct (p !! "id").
Qed.

Lemma comprehension_getitem_decide key products :
  Indexer.comprehension (λ p, getitem p key) products
  = if decide (Forall (λ p, is_Some (p !! key)) products)
    then Return (omap (λ p, p !! key) products)
    else Raise (PyExc "KeyError" key None).
Proof.
  destruct (decide _) as [Hall|Hnot].
  - by apply comprehension_getitem.
  - apply comprehension_getitem_missing.
    apply not_Forall_Exists in Hnot; [|apply _].
    eapply Exists_impl; [exact Hnot|]. intros p Hp. simpl in Hp.
    destruct (p !! key); [|done]. destruct Hp. by eexists.
Qed.

End IndexProductsRuns.

(** X17: for products that all have [title], [description] and [id], and an
    encoder that returns at least one vector per text, [index_products]
    embeds the titles, the descriptions and the combined texts, in that
    order, and then sends one bulk call with one action per product, in
    the order of the products: the action of a product is addressed to the
    configured index, has the product's [id] as [_id] and stores the
    product with its three vectors.  Whatever [helpers.bulk] returns, also
    a non-empty list of failed items, the index is then refreshed and the
    outcome is that of the refresh. *)
Theorem index_products_success (w : Indexer.world) (log : list Indexer.event)
    (products : list (gmap string json)) (tvs dvs cvs : list json) :
  let titles := omap (λ p, p !! "title") products in
  let descriptions := omap (λ p, p !! "description") products in
  let combined := omap (Stored.combined_text (Indexer.py_str w)) products in
  let name := Indexer.index_name w in
  Forall Stored.complete products →
  Indexer.encode w titles = Return tvs →
  Indexer.encode w descriptions = Return dvs →
  Indexer.encode w combined = Return cvs →
  (length products ≤ length tvs)%nat →
  (length products ≤ length dvs)%nat →
  (length products ≤ length cvs)%nat →
  ∃ actions,
    length actions = length products
    ∧ (∀ i p, products !! i = Some p →
         ∃ id tv dv cv,
           p !! "id" = Some id
           ∧ tvs !! i = Some tv ∧ dvs !! i = Some dv ∧ cvs !! i = Some cv
           ∧ actions !! i
             = Some (Stored.bulk_action name id (Stored.doc p tv dv cv)))
    ∧ Indexer.index_products products w log
      = match Indexer.bulk w actions with
        | Raise e =>
            (Raise e,
             log ++ [Indexer.Encode titles; Indexer.Encode descriptions;
                     Indexer.Encode combined; Indexer.Bulk actions])
        | Return _ =>
            (Indexer.indices_refresh w name,
             log ++ [Indexer.Encode titles; Indexer.Encode descriptions;
                     Indexer.Encode combined; Indexer.Bulk actions;
                     Indexer.Refresh name])
        end.
Proof.
  intros titles descriptions combined name Hall Ht Hd Hc Hlt Hld Hlc.
  destruct (actions_from_complete name tvs dvs cvs products 0 [])
    as (actions & Hrun & Hlen & Hactions); [|done..|].
  { eapply Forall_impl; [exact Hall|]. by intros p (_ & _ & ?). }
  exists actions. split; [exact Hlen|]. split; [exact Hactions|].
  rewrite (index_products_run w log products titles descriptions combined).
  - rewrite Ht, Hd, Hc. fold name. rewrite Hrun. simpl.
    by destruct (Indexer.bulk w actions).
  - apply comprehension_getitem.
    eapply Forall_impl; [exact Hall|]. by intros p (? & _).
  - apply comprehension_getitem.
    eapply Forall_impl; [exact Hall|]. by intros p (_ & ? & _).
  - apply comprehension_combined.
    eapply Forall_impl; [exact Hall|]. by intros p (? & ? & _).
Qed.

Lemma index_products_success_witness :
  (Indexer.index_products [Catalogue.jacket] Bench.partial_failure []).1
  = Return ()
  ∧ Stored.bulk_calls
      (Indexer.index_products [Catalogue.jacket] Bench.partial_failure []).2
    = [[Stored.bulk_action "products" (JStr "p1")
          (Stored.doc Catalogue.jacket Catalogue.vector Catalogue.vector
             Catalogue.vector)]].
Proof.
  destruct (index_products_success Bench.partial_failure [] [Catalogue.jacket]
              [Catalogue.vector] [Catalogue.vector] [Catalogue.vector])
    as (actions & Hlen & Hactions & Hrun);
    [repeat constructor; by eexists | reflexivity.. | simpl; lia
    | simpl; lia | simpl; lia |].
  destruct actions as [|a [|? ?]]; try discriminate Hlen.
  destruct (Hactions 0%nat Catalogue.jacket eq_refl)
    as (id & tv & dv & cv & Hid & Htv & Hdv & Hcv & Ha).
  injection Hid as <-. injection Htv as <-. injection Hdv as <-.
  injection Hcv as <-. injection Ha as ->.
  rewrite Hrun. split; reflexivity.
Defined.

Lemma index_products_text_failure (w : Indexer.world)
    (log : list Indexer.event) (products : list (gmap string json)) :
  ¬ Forall (λ p, is_Some (p !! "title") ∧ is_Some (p !! "description"))
      products →
  ∃ key,
    (key = "title" ∨ key = "description")
    ∧ Indexer.index_products products w log
      = (Raise (PyExc "KeyError" key None), log).
Proof.
  intros Hmissing.
  unfold Indexer.index_products, perform, ask, pure_outcome,
    mbind at 1 2 3, eff_bind.
  rewrite (comprehension_getitem_decide "title").
  destruct (decide _) as [Htitles|_]; [|exists "title"; by eauto].
  unfold mbind at 1, eff_bind.
  rewrite (comprehension_getitem_decide "description").
  destruct (decide _) as [Hdescriptions|_]; [|exists "description"; by eauto].
  destruct Hmissing. apply Forall_and. done.
Qed.

(** X18: a product without [title], or without [description], makes
    [index_products] raise a [KeyError] before any text is embedded and
    before anything is sent to Elasticsearch. *)
Theorem index_products_missing_text (w : Indexer.world)
    (log : list Indexer.event) (products : list (gmap string json)) :
  Exists (λ p, p !! "title" = None ∨ p !! "description" = None) products →
  ∃ key,
    (key = "title" ∨ key = "description")
    ∧ Indexer.index_products products w log
      = (Raise (PyExc "KeyError" key None), log).
Proof.
  intros Hmissing. apply index_products_text_failure.
  intros Hall. apply Exists_exists in Hmissing as (p & Hp & Hnone).
  rewrite Forall_forall in Hall.
  destruct (Hall p Hp) as [[t Ht] [d Hd]], Hnone; congruence.
Qed.

Lemma index_products_missing_text_witness :
  ∃ key,
    Indexer.index_products [Catalogue.jacket; Catalogue.terse]
      Bench.partial_failure []
    = (Raise (PyExc "KeyError" key None), []).
Proof.
  destruct (index_products_missing_text Bench.partial_failure []
              [Catalogue.jacket; Catalogue.terse])
    as (key & _ & Hrun).
  - right. left. right. reflexivity.
  - by exists key.
Defined.

(** X19: in any run of [index_products] the bulk call is issued at most
    once, and only when an action could be built for every product: it
    then carries exactly one action per product, and every product has
    [title], [description] and [id].  A run that returns normally has
    issued the bulk call. *)
Theorem index_products_bulk_all_or_nothing (w : Indexer.world)
    (log : list Indexer.event) (products : list (gmap string json)) :
  let run := Indexer.index_products products w log in
  ∃ new,
    run.2 = log ++ new
    ∧ (Stored.bulk_calls new = []
       ∨ ∃ actions, Stored.bulk_calls new = [actions]
                    ∧ length actions = length products
                    ∧ Forall Stored.complete products)
    ∧ (run.1 = Return () → Stored.bulk_calls new ≠ []).
Proof.
  intros run. subst run.
  destruct (decide (Forall (λ p, is_Some (p !! "title")
                                 ∧ is_Some (p !! "description")) products))
    as [Htext|Htext].
  2:{ destruct (index_products_text_failure w log products Htext)
        as (key & _ & ->).
      exists []. simpl. rewrite app_nil_r. split; [done|].
      split; [by left | intros H; discriminate H]. }
  pose proof (comprehension_combined (Indexer.py_str w) _ Htext) as Hc.
  apply Forall_and in Htext as [Ht Hd].
  rewrite (index_products_run w log products _ _ _
             (comprehension_getitem _ _ Ht) (comprehension_getitem _ _ Hd)
             Hc).
  destruct (Indexer.encode w _) as [tvs|e].
  2:{ eexists. split; [reflexivity|].
      split; [by left | intros H; discriminate H]. }
  destruct (Indexer.encode w _) as [dvs|e].
  2:{ eexists. split; [reflexivity|].
      split; [by left | intros H; discriminate H]. }
  destruct (Indexer.encode w _) as [cvs|e].
  2:{ eexists. split; [reflexivity|].
      split; [by left | intros H; discriminate H]. }
  destruct (Indexer.actions_from _ _ _ _ _ _ _) as [actions|e] eqn:Hactions.
  2:{ eexists. split; [reflexivity|].
      split; [by left | intros H; discriminate H]. }
  assert (length actions = length products
          ∧ Forall Stored.complete products) as [Hlen Hcomplete].
  { split; [by apply actions_from_length in Hactions|].
    apply actions_from_ids in Hactions.
    rewrite Forall_forall in Ht, Hd, Hactions. apply Forall_forall.
    intros p Hp. repeat split; auto. }
  destruct (Indexer.bulk w actions) as [[success failed]|e];
    (eexists; split; [reflexivity|]); simpl;
    (split; [right; by exists actions | done]).
Qed.

Lemma index_products_bulk_all_or_nothing_witness :
  ∃ new,
    (Indexer.index_products [Catalogue.jacket; Catalogue.anonymous]
       Bench.partial_failure []).2 = [] ++ new
    ∧ Stored.bulk_calls new = [].
Proof.
  destruct (index_products_bulk_all_or_nothing Bench.partial_failure []
              [Catalogue.jacket; Catalogue.anonymous])
    as (new & Hlog & [Hnone|(actions & _ & _ & Hall)] & _).
  - by exists new.
  - apply Forall_cons in Hall as [_ Hall].
    apply Forall_cons in Hall as [(_ & _ & [id Hid]) _].
    vm_compute in Hid. discriminate Hid.
Defined.

(** ** From the index back to a result *)

Lemma without_vectors_lookup (source : gmap string json) (k : string) :
  Stored.without_vectors source !! k
  = if is_vector_field k then None else source !! k.
Proof.
  unfold Stored.without_vectors.
  destruct (is_vector_field k) eqn:Hk.
  - apply map_lookup_filter_None. right. intros x _. simpl. congruence.
  - destruct (source !! k) as [x|] eqn:Hx.
    + by apply map_lookup_filter_Some.
    + apply map_lookup_filter_None. by left.
Qed.

Lemma stored_doc_lookup (p : gmap string json) (tv dv cv : json) (k : string) :
  is_vector_field k = false → Stored.doc p tv dv cv !! k = p !! k.
Proof.
  intros Hk. unfold Stored.doc.
  rewrite !lookup_insert_ne; [done | intros <-; discriminate Hk ..].
Qed.

(** X20: take a product whose [id] is a string, the document
    [index_products] stores for it, and a hit for that document whose
    [_source] is the document without its vector fields.  The result the
    hybrid search builds from the hit has the hit's identifier under [id],
    no vector field, every other field of the product unchanged, and the
    hit's score under [score] unless the product has a field of that
    name. *)
Theorem indexed_product_round_trip (product : gmap string json) (id : string)
    (tv dv cv : json) (h : hit) :
  product !! "id" = Some (JStr id) →
  _id h = id →
  _source h = Stored.without_vectors (Stored.doc product tv dv cv) →
  let result := HybridSearch.make_result h in
  result !! "id" = Some (JStr (_id h))
  ∧ (∀ k, is_vector_field k = true → result !! k = None)
  ∧ (∀ k, is_vector_field k = false → k ≠ "score" →
          result !! k = product !! k)
  ∧ (product !! "score" = None → result !! "score" = Some (JFloat (_score h))).
Proof.
  intros Hid Hh Hsource result. subst result.
  assert (∀ k, is_vector_field k = false → _source h !! k = product !! k)
    as Hkeep.
  { intros k Hk. rewrite Hsource, without_vectors_lookup, Hk.
    by apply stored_doc_lookup. }
  split; [|split; [|split]].
  - apply make_result_source. rewrite Hkeep by reflexivity. by rewrite Hh.
  - intros k Hk. rewrite make_result_vector_field by exact Hk.
    by rewrite Hsource, without_vectors_lookup, Hk.
  - intros k Hk Hscore. rewrite <- (Hkeep k Hk).
    destruct (_source h !! k) as [x|] eqn:Hx; [by apply make_result_source|].
    unfold HybridSearch.make_result, dict_merge.
    rewrite lookup_union_r by exact Hx.
    rewrite lookup_insert_ne by congruence.
    rewrite lookup_insert_ne; [done|].
    intros <-. rewrite Hkeep in Hx by reflexivity. congruence.
  - intros Hnone. apply make_result_score.
    rewrite Hkeep by reflexivity. exact Hnone.
Qed.

Lemma indexed_product_round_trip_witness :
  let h := {| _id := "p1"; _score := 0.875;
              _source := Stored.without_vectors
                           (Stored.doc Catalogue.jacket Catalogue.vector
                              Catalogue.vector Catalogue.vector) |} in
  HybridSearch.make_result h !! "id" = Some (JStr "p1")
  ∧ HybridSearch.make_result h !! "combined_vector" = None
  ∧ HybridSearch.make_result h !! "price" = Some (JInt 80).
Proof.
  intros h.
  destruct (indexed_product_round_trip Catalogue.jacket "p1" Catalogue.vector
              Catalogue.vector Catalogue.vector h eq_refl eq_refl eq_refl)
    as (Hid & Hvec & Hkeep & _).
  split; [exact Hid|]. split.
  - by apply Hvec.
  - by rewrite Hkeep.
Defined.

(** ** Understanding the query *)

Section UnderstandQuery.

Import SearchAgent.

Implicit Types (w : world) (log : list event) (query : string).

Lemma clean_analysis_raises (analysis : json) (e : pyexc) :
  clean_analysis analysis = Raise e → ∀ derives, is_Exception derives e = true.
Proof.
  unfold clean_analysis.
  destruct analysis as [| | | | s | l | d]; simpl;
    try (intros [= <-]; reflexivity).
  - destruct (occurs "filters" s); simpl; intros [= <-]; reflexivity.
  - destruct (existsb _ l); simpl; intros [= <-]; reflexivity.
  - unfold contains, getitem.
    destruct (d !! "filters") as [[| | | | | | f]|]; simpl;
      intros [= <-]; reflexivity.
Qed.

(** One run of [_understand_query]. *)
Lemma understand_query_run w log query :
  let prompt := understanding_prompt w query in
  let mime := Some "application/json" in
  let caught (e : pyexc) : outcome json :=
    if catches w e then Return (fallback_analysis query) else Raise e in
  _understand_query query w log
  = (match generate_content w prompt temperature_0_1 mime with
     | Raise e => caught e
     | Return text =>
         match json_loads w text with
         | Raise e => caught e
         | Return analysis =>
             match clean_analysis analysis with
             | Raise _ => Return (fallback_analysis query)
             | Return cleaned => Return cleaned
             end
         end
     end,
     log ++ [Generate prompt temperature_0_1 mime]).
Proof.
  intros prompt mime caught. subst prompt mime caught.
  unfold _understand_query, try_except, perform, ask, pure_outcome.
  unfold mbind at 1, eff_bind. unfold mbind at 1 2 3, eff_bind.
  destruct (generate_content w _ _ _) as [text|e]; simpl;
    [|by destruct (catches w e)].
  destruct (json_loads w text) as [analysis|e]; simpl;
    [|by destruct (catches w e)].
  destruct (clean_analysis analysis) as [cleaned|e] eqn:Hclean; simpl; [done|].
  unfold catches. by rewrite (clean_analysis_raises _ _ Hclean).
Qed.

End UnderstandQuery.

(** X21: [_understand_query] calls the model exactly once, at temperature
    0.1 and asking for JSON, and never lets an instance of [Exception]
    escape.  When the call or [json.loads] raises, the answer is the
    fallback analysis, whose search terms and intent are the raw query and
    whose filters are empty, if the exception is an instance of
    [Exception]; any other exception reaches the caller unchanged. *)
Theorem understand_query_falls_back (w : SearchAgent.world)
    (log : list SearchAgent.event) (query : string) :
  let run := SearchAgent._understand_query query w log in
  let prompt := SearchAgent.understanding_prompt w query in
  let mime := Some "application/json" in
  let fails (e : pyexc) :=
    SearchAgent.generate_content w prompt SearchAgent.temperature_0_1 mime
      = Raise e
    ∨ ∃ text,
        SearchAgent.generate_content w prompt SearchAgent.temperature_0_1 mime
          = Return text
        ∧ SearchAgent.json_loads w text = Raise e in
  run.2 = log ++ [SearchAgent.Generate prompt SearchAgent.temperature_0_1 mime]
  ∧ (∀ e, run.1 = Raise e → SearchAgent.catches w e = false ∧ fails e)
  ∧ (∀ e, fails e →
       run.1 = if SearchAgent.catches w e
               then Return (SearchAgent.fallback_analysis query)
               else Raise e)
  ∧ jpath ["search_terms"] (SearchAgent.fallback_analysis query)
    = Some (JStr query)
  ∧ jpath ["filters"] (SearchAgent.fallback_analysis query) = Some (JObj ∅)
  ∧ jpath ["intent"] (SearchAgent.fallback_analysis query) = Some (JStr query).
Proof.
  intros run prompt mime fails. subst run prompt mime fails.
  rewrite understand_query_run. cbn [fst snd].
  split; [reflexivity|]. split; [|split; [|by repeat split]].
  - intros e.
    destruct (SearchAgent.generate_content w _ _ _) as [text|e0].
    + destruct (SearchAgent.json_loads w text) as [analysis|e1] eqn:Hl.
      * by destruct (SearchAgent.clean_analysis analysis).
      * destruct (SearchAgent.catches w e1) eqn:He1; [done|].
        intros [= <-]. split; [exact He1|]. right. by exists text.
    + destruct (SearchAgent.catches w e0) eqn:He0; [done|].
      intros [= <-]. split; [exact He0 | by left].
  - by intros e [->|(text & -> & ->)].
Qed.

Lemma understand_query_falls_back_witness :
  (SearchAgent._understand_query "red shoes" (Desk.model_down []) []).1
  = Return (SearchAgent.fallback_analysis "red shoes").
Proof.
  destruct (understand_query_falls_back (Desk.model_down []) [] "red shoes")
    as (_ & _ & Hfails & _).
  rewrite (Hfails Desk.quota_error); [reflexivity|]. by left.
Defined.

(** X22: when the model's reply parses to an object whose [filters] is an
    object, [_understand_query] returns the reply with the null-valued
    filters removed: no filter of the answer is null, every other filter
    is kept with its value, and the other entries of the reply are
    unchanged. *)
Theorem understand_query_cleans_filters (w : SearchAgent.world)
    (log : list SearchAgent.event) (query text : string)
    (reply filters : gmap string json) :
  SearchAgent.generate_content w (SearchAgent.understanding_prompt w query)
    SearchAgent.temperature_0_1 (Some "application/json") = Return text →
  SearchAgent.json_loads w text = Return (JObj reply) →
  reply !! "filters" = Some (JObj filters) →
  ∃ cleaned,
    (SearchAgent._understand_query query w log).1
      = Return (JObj (<["filters" := JObj cleaned]> reply))
    ∧ (∀ k, cleaned !! k ≠ Some JNull)
    ∧ (∀ k v, v ≠ JNull → filters !! k = Some v → cleaned !! k = Some v)
    ∧ (∀ k v, cleaned !! k = Some v → filters !! k = Some v).
Proof.
  intros Hgen Hloads Hfilters. exists (Agent.clean_filters filters).
  rewrite understand_query_run, Hgen, Hloads. cbn [fst].
  unfold SearchAgent.clean_analysis. simpl.
  unfold contains, getitem. rewrite Hfilters. simpl.
  split; [reflexivity|]. unfold Agent.clean_filters. split; [|split].
  - intros k Hk. apply map_lookup_filter_Some in Hk as [_ Hnull]. done.
  - intros k v Hv Hk. apply map_lookup_filter_Some. split; [done|].
    by destruct v.
  - intros k v Hk. by apply map_lookup_filter_Some in Hk as [? _].
Qed.

Lemma understand_query_cleans_filters_witness :
  ∃ cleaned,
    (SearchAgent._understand_query "cheap red shoes"
       (Desk.model_says
          (JObj (<["search_terms" := JStr "red shoes"]>
                {["filters" :=
                   JObj (<["max_price" := JInt 30]> {["brand" := JNull]})]})))
       []).1
    = Return
        (JObj (<["filters" := JObj cleaned]>
              (<["search_terms" := JStr "red shoes"]>
              {["filters" :=
                 JObj (<["max_price" := JInt 30]> {["brand" := JNull]})]})))
    ∧ cleaned !! "brand" = None
    ∧ cleaned !! "max_price" = Some (JInt 30).
Proof.
  destruct (understand_query_cleans_filters
    (Desk.model_says
       (JObj (<["search_terms" := JStr "red shoes"]>
             {["filters" :=
                JObj (<["max_price" := JInt 30]> {["brand" := JNull]})]})))
    [] "cheap red shoes" "reply"
    (<["search_terms" := JStr "red shoes"]>
       {["filters" := JObj (<["max_price" := JInt 30]> {["brand" := JNull]})]})
    (<["max_price" := JInt 30]> {["brand" := JNull]}))
    as (cleaned & Hrun & Hnull & Hkeep & Hback);
    [reflexivity | reflexivity | vm_compute; reflexivity |].
  exists cleaned. split; [exact Hrun|]. split.
  - destruct (cleaned !! "brand") as [v|] eqn:Hv; [|done].
    apply Hback in Hv as Hf. vm_compute in Hf. injection Hf as <-.
    by destruct (Hnull "brand").
  - apply Hkeep; [discriminate | vm_compute; reflexivity].
Defined.

(** X23: when the reply parses to an object whose [filters] is not an
    object, as in [{"filters": null}], the whole reply is discarded,
    search terms included, and the fallback analysis on the raw query is
    returned. *)
Theorem understand_query_bad_filters (w : SearchAgent.world)
    (log : list SearchAgent.event) (query text : string)
    (reply : gmap string json) (filters : json) :
  SearchAgent.generate_content w (SearchAgent.understanding_prompt w query)
    SearchAgent.temperature_0_1 (Some "application/json") = Return text →
  SearchAgent.json_loads w text = Return (JObj reply) →
  reply !! "filters" = Some filters →
  (∀ d, filters ≠ JObj d) →
  (SearchAgent._understand_query query w log).1
  = Return (SearchAgent.fallback_analysis query).
Proof.
  intros Hgen Hloads Hfilters Hbad.
  rewrite understand_query_run, Hgen, Hloads. cbn [fst].
  unfold SearchAgent.clean_analysis. simpl.
  unfold contains, getitem. rewrite Hfilters. simpl.
  destruct filters as [| | | | | | d]; simpl; try done.
  by destruct (Hbad d).
Qed.

Lemma understand_query_bad_filters_witness :
  (SearchAgent._understand_query "cheap red shoes"
     (Desk.model_says
        (JObj (<["search_terms" := JStr "red shoes"]> {["filters" := JNull]})))
     []).1
  = Return (SearchAgent.fallback_analysis "cheap red shoes").
Proof.
  apply (understand_query_bad_filters _ [] "cheap red shoes" "reply"
           (<["search_terms" := JStr "red shoes"]> {["filters" := JNull]})
           JNull);
    [reflexivity | reflexivity | vm_compute; reflexivity |].
  intros d H. discriminate H.
Defined.

(** ** Generating the response *)

Section GenerateResponse.

Import SearchAgent.

Implicit Types (w : world) (log : list event) (user_query : string)
  (intent : json) (results : list (gmap string json)).

(** One run of [_generate_response] on results that could be formatted. *)
Lemma generate_response_run w log user_query intent results text :
  results ≠ [] →
  format_results (py_str w) (unsliceable w) 1 (take 5 results) "" = Return text →
  let prompt :=
    response_prompt w user_query (Indexer.fstr (py_str w) intent) text in
  _generate_response user_query intent results w log
  = (match generate_content w prompt temperature_0_7 None with
     | Return response => Return response
     | Raise e =>
         if catches w e
         then fallback_response (py_str w) user_query results
         else Raise e
     end,
     log ++ [Generate prompt temperature_0_7 None]).
Proof.
  intros Hne Hformat prompt. subst prompt.
  destruct results as [|r rest]; [done|].
  unfold _generate_response, try_except, perform, ask, pure_outcome.
  unfold mbind at 1, eff_bind. unfold mbind at 1, eff_bind.
  unfold mbind at 1, eff_bind. rewrite Hformat.
  unfold mbind at 1, eff_bind.
  destruct (generate_content w _ _ _) as [response|e]; [done|].
  by destruct (catches w e).
Qed.

Lemma generate_response_unformatted w log user_query intent results e :
  results ≠ [] →
  format_results (py_str w) (unsliceable w) 1 (take 5 results) "" = Raise e →
  _generate_response user_query intent results w log = (Raise e, log).
Proof.
  intros Hne Hformat. destruct results as [|r rest]; [done|].
  unfold _generate_response, try_except, perform, ask, pure_outcome.
  unfold mbind at 1, eff_bind. unfold mbind at 1, eff_bind.
  unfold mbind at 1, eff_bind. by rewrite Hformat.
Qed.

Lemma format_results_first str raised idx r rest acc text :
  format_results str raised idx (r :: rest) acc = Return text →
  is_Some (r !! "title") ∧ is_Some (r !! "price").
Proof.
  simpl. unfold getitem.
  destruct (r !! "title"); [|intros H; discriminate H].
  destruct (r !! "price"); [|intros H; discriminate H].
  intros _. split; by eexists.
Qed.

End GenerateResponse.

(** X24: when the results could be formatted and the model then raises an
    instance of [Exception], [_generate_response] does not raise:
    it returns the sentence that gives the number of results, the query,
    and the title and price of the first result. *)
Theorem generate_response_fallback (w : SearchAgent.world)
    (log : list SearchAgent.event) (user_query : string) (intent : json)
    (top : gmap string json) (rest : list (gmap string json))
    (text : string) (e : pyexc) :
  let results := top :: rest in
  let str := Indexer.fstr (SearchAgent.py_str w) in
  SearchAgent.format_results (SearchAgent.py_str w) (SearchAgent.unsliceable w)
    1 (take 5 results) "" = Return text →
  SearchAgent.generate_content w
    (SearchAgent.response_prompt w user_query (str intent) text)
    SearchAgent.temperature_0_7 None = Raise e →
  SearchAgent.catches w e = true →
  ∃ title price,
    top !! "title" = Some title
    ∧ top !! "price" = Some price
    ∧ (SearchAgent._generate_response user_query intent results w log).1
      = Return ("I found " +:+ pretty (length results)
                +:+ " products that match '" +:+ user_query
                +:+ "'. The top result is " +:+ str title
                +:+ " for $" +:+ str price +:+ ".").
Proof.
  intros results str Hformat Hgen He. subst results str.
  destruct (format_results_first _ _ _ _ _ _ _ Hformat)
    as [[title Ht] [price Hp]].
  exists title, price. split; [exact Ht|]. split; [exact Hp|].
  rewrite (generate_response_run w log user_query intent (top :: rest) text)
    by done.
  cbn [fst]. rewrite Hgen, He.
  unfold SearchAgent.fallback_response, Indexer.item, getitem. simpl.
  by rewrite Ht, Hp.
Qed.

Lemma generate_response_fallback_witness :
  (SearchAgent._generate_response "boots" (JStr "boots") [Desk.boots]
     (Desk.model_down [Desk.boots]) []).1
  = Return "I found 1 products that match 'boots'. The top result is Hiking boots for $120.".
Proof.
  destruct (generate_response_fallback (Desk.model_down [Desk.boots]) []
              "boots" (JStr "boots") Desk.boots [] _ Desk.quota_error
              eq_refl eq_refl eq_refl)
    as (title & price & Ht & Hp & Hrun).
  vm_compute in Ht, Hp. injection Ht as <-. injection Hp as <-.
  rewrite Hrun. reflexivity.
Defined.

(** X25: only the first five results reach the model: the calls issued by
    [_generate_response] are the same for a result list and for its first
    five entries, and so is the outcome, except for the sentence returned
    when the model fails, which counts all results. *)
Theorem generate_response_first_five (w : SearchAgent.world)
    (log : list SearchAgent.event) (user_query : string) (intent : json)
    (results : list (gmap string json)) :
  let run := SearchAgent._generate_response user_query intent results w log in
  let run5 :=
    SearchAgent._generate_response user_query intent (take 5 results) w log in
  run.2 = run5.2
  ∧ (run.1 = run5.1
     ∨ (run.1 = SearchAgent.fallback_response (SearchAgent.py_str w)
                  user_query results
        ∧ run5.1 = SearchAgent.fallback_response (SearchAgent.py_str w)
                     user_query (take 5 results))).
Proof.
  intros run run5. subst run run5.
  destruct results as [|r rest]; [by split; [|left]|].
  assert (take 5 (r :: rest) ≠ []) as Hne5 by done.
  assert (r :: rest ≠ []) as Hne by done.
  destruct (SearchAgent.format_results (SearchAgent.py_str w)
              (SearchAgent.unsliceable w) 1 (take 5 (r :: rest)) "")
    as [text|e] eqn:Hformat.
  - rewrite (generate_response_run w log user_query intent _ text Hne Hformat).
    rewrite (generate_response_run w log user_query intent _ text Hne5)
      by (by rewrite take_take).
    cbn [fst snd]. split; [reflexivity|].
    destruct (SearchAgent.generate_content w _ _ _) as [response|e];
      [by left|].
    destruct (SearchAgent.catches w e); [by right | by left].
  - rewrite (generate_response_unformatted w log user_query intent _ e Hne
               Hformat).
    rewrite (generate_response_unformatted w log user_query intent _ e Hne5)
      by (by rewrite take_take).
    split; [reflexivity | by left].
Qed.

(** ** One turn of the conversation *)

Section Chat.

Import SearchAgent.

Implicit Types (w : world) (log : list event) (self : History.memory)
  (user_query : string).

(** One run of [chat], given what [_understand_query] has done. *)
Lemma chat_run w log self user_query analysis log1 :
  _understand_query user_query w log = (Return analysis, log1) →
  chat self user_query w log
  = match subscript analysis "intent" with
    | Raise e => (Raise e, log1)
    | Return intent =>
    match subscript analysis "search_terms" with
    | Raise e => (Raise e, log1)
    | Return search_terms =>
    match subscript analysis "filters" with
    | Raise e => (Raise e, log1)
    | Return filters =>
    let searched := log1 ++ [Search search_terms 10 filters] in
    match searcher_search w search_terms 10 filters with
    | Raise e => (Raise e, searched)
    | Return results =>
    match _generate_response user_query intent results w searched with
    | (Raise e, log2) => (Raise e, log2)
    | (Return response, log2) =>
        (Return (chat_result user_query intent filters results response,
                 History._update_history self user_query response), log2)
    end end end end end.
Proof.
  intros Hunderstood. unfold chat, perform, pure_outcome.
  unfold mbind at 1, eff_bind. rewrite Hunderstood.
  unfold mbind at 1, eff_bind.
  destruct (subscript analysis "intent") as [intent|e]; [|done].
  unfold mbind at 1, eff_bind.
  destruct (subscript analysis "search_terms") as [search_terms|e]; [|done].
  unfold mbind at 1, eff_bind.
  destruct (subscript analysis "filters") as [filters|e]; [|done].
  unfold mbind at 1, eff_bind.
  destruct (searcher_search w search_terms 10 filters) as [results|e]; [|done].
  unfold mbind at 1, eff_bind.
  by destruct (_generate_response _ _ _ _ _) as [[response|e] log2].
Qed.

End Chat.

(** X26: when the searcher raises, [chat] raises the same exception right
    after the search call: no response is generated and the conversation
    history is left as it was. *)
Theorem chat_search_failure (w : SearchAgent.world)
    (log log1 : list SearchAgent.event) (self : History.memory)
    (user_query : string) (analysis intent search_terms filters : json)
    (e : pyexc) :
  SearchAgent._understand_query user_query w log = (Return analysis, log1) →
  subscript analysis "intent" = Return intent →
  subscript analysis "search_terms" = Return search_terms →
  subscript analysis "filters" = Return filters →
  SearchAgent.searcher_search w search_terms 10 filters = Raise e →
  SearchAgent.chat self user_query w log
    = (Raise e, log1 ++ [SearchAgent.Search search_terms 10 filters])
  ∧ SearchAgent.after_chat self user_query w log = self.
Proof.
  intros Hu Hi Ht Hf Hsearch.
  assert (SearchAgent.chat self user_query w log
          = (Raise e, log1 ++ [SearchAgent.Search search_terms 10 filters]))
    as Hrun.
  { rewrite (chat_run w log self user_query analysis log1 Hu).
    rewrite Hi, Ht, Hf. cbn zeta. by rewrite Hsearch. }
  split; [exact Hrun|]. unfold SearchAgent.after_chat. by rewrite Hrun.
Qed.

Lemma chat_search_failure_witness :
  SearchAgent.chat Desk.fresh "cheap red shoes"
    (Desk.search_down (JObj Desk.reply)) []
  = (Raise More.timeout_error,
     [SearchAgent.Generate "cheap red shoes" SearchAgent.temperature_0_1
        (Some "application/json");
      SearchAgent.Search (JStr "red shoes") 10
        (JObj {["max_price" := JInt 30]})])
  ∧ SearchAgent.after_chat Desk.fresh "cheap red shoes"
      (Desk.search_down (JObj Desk.reply)) [] = Desk.fresh.
Proof.
  apply (chat_search_failure (Desk.search_down (JObj Desk.reply)) []
           [SearchAgent.Generate "cheap red shoes" SearchAgent.temperature_0_1
              (Some "application/json")]
           Desk.fresh "cheap red shoes"
           (JObj (<["filters" := JObj {["max_price" := JInt 30]}]> Desk.reply))
           (JStr "shoes") (JStr "red shoes")
           (JObj {["max_price" := JInt 30]}) More.timeout_error);
    vm_compute; reflexivity.
Defined.

(** X27: with the model failing on every call with an instance of
    [Exception], [chat] still searches: for the raw user query, with
    [top_k = 10] and empty filters, after the one call that tried to
    understand the query.  When the search finds nothing, [chat] returns
    the fixed apology, without a second call to the model, and records
    the exchange. *)
Theorem chat_model_down (w : SearchAgent.world) (log : list SearchAgent.event)
    (self : History.memory) (user_query : string) :
  (∀ prompt temperature mime,
     ∃ e, SearchAgent.generate_content w prompt temperature mime = Raise e
          ∧ SearchAgent.catches w e = true) →
  let understood :=
    log ++ [SearchAgent.Generate (SearchAgent.understanding_prompt w user_query)
              SearchAgent.temperature_0_1 (Some "application/json")] in
  let searched :=
    understood ++ [SearchAgent.Search (JStr user_query) 10 (JObj ∅)] in
  (∃ rest, (SearchAgent.chat self user_query w log).2 = searched ++ rest)
  ∧ (SearchAgent.searcher_search w (JStr user_query) 10 (JObj ∅) = Return [] →
     SearchAgent.chat self user_query w log
     = (Return (SearchAgent.chat_result user_query (JStr user_query) (JObj ∅)
                  [] SearchAgent.apology,
                History._update_history self user_query SearchAgent.apology),
        searched)).
Proof.
  intros Hdown understood searched.
  assert (SearchAgent._understand_query user_query w log
          = (Return (SearchAgent.fallback_analysis user_query), understood))
    as Hu.
  { rewrite understand_query_run.
    destruct (Hdown (SearchAgent.understanding_prompt w user_query)
                SearchAgent.temperature_0_1 (Some "application/json"))
      as (e & -> & ->). done. }
  rewrite (chat_run w log self user_query _ understood Hu).
  change (subscript (SearchAgent.fallback_analysis user_query) "intent")
    with (Return (A := json) (JStr user_query)).
  change (subscript (SearchAgent.fallback_analysis user_query) "search_terms")
    with (Return (A := json) (JStr user_query)).
  change (subscript (SearchAgent.fallback_analysis user_query) "filters")
    with (Return (A := json) (JObj ∅)).
  cbn zeta. fold searched. split.
  - destruct (SearchAgent.searcher_search w _ _ _) as [results|e];
      [|exists []; by rewrite app_nil_r].
    destruct results as [|r rest].
    + exists []. by rewrite app_nil_r.
    + destruct (SearchAgent.format_results (SearchAgent.py_str w)
                  (SearchAgent.unsliceable w) 1 (take 5 (r :: rest)) "")
        as [text|e] eqn:Hformat.
      * rewrite (generate_response_run w searched user_query _ (r :: rest)
                   text) by done.
        eexists [_]. by destruct (match SearchAgent.generate_content w _ _ _
                                        with Return _ => _ | Raise _ => _ end).
      * rewrite (generate_response_unformatted w searched user_query _
                   (r :: rest) e) by done.
        exists []. by rewrite app_nil_r.
  - by intros ->.
Qed.

Lemma chat_model_down_witness :
  SearchAgent.chat
    {| History.conversation_history := []; History.max_history := 5 |}
    "red shoes" (Desk.model_down []) []
  = (Return (SearchAgent.chat_result "red shoes" (JStr "red shoes") (JObj ∅)
               [] SearchAgent.apology,
             {| History.conversation_history :=
                  [{| History.user := "red shoes";
                      History.agent := SearchAgent.apology |}];
                History.max_history := 5 |}),
     [SearchAgent.Generate "red shoes" SearchAgent.temperature_0_1
        (Some "application/json");
      SearchAgent.Search (JStr "red shoes") 10 (JObj ∅)]).
Proof.
  destruct (chat_model_down (Desk.model_down [])  []
              {| History.conversation_history := [];
                 History.max_history := 5 |} "red shoes") as (_ & Hrun).
  - intros p t m. exists Desk.quota_error. by split.
  - rewrite Hrun; reflexivity.
Defined.

(** X28: a call of [chat] that returns has searched exactly once, with
    [top_k = 10], after the call that understands the query.  The
    dictionary it returns holds the query, the results of that search
    unchanged, their number as [result_count] and the response; the agent
    then remembers the exchange of the query and that response. *)
Theorem chat_bookkeeping (w : SearchAgent.world) (log : list SearchAgent.event)
    (self self' : History.memory) (user_query : string)
    (returned : gmap string json) :
  (SearchAgent.chat self user_query w log).1 = Return (returned, self') →
  ∃ search_terms filters results response rest,
    (SearchAgent.chat self user_query w log).2
      = (SearchAgent._understand_query user_query w log).2
        ++ SearchAgent.Search search_terms 10 filters :: rest
    ∧ (∀ q k f, SearchAgent.Search q k f ∉ rest)
    ∧ SearchAgent.searcher_search w search_terms 10 filters = Return results
    ∧ returned !! "query" = Some (JStr user_query)
    ∧ returned !! "results" = Some (JArr (JObj <$> results))
    ∧ returned !! "result_count" = Some (JInt (Z.of_nat (length results)))
    ∧ returned !! "response" = Some (JStr response)
    ∧ returned !! "filters" = Some filters
    ∧ self' = History._update_history self user_query response.
Proof.
  destruct (SearchAgent._understand_query user_query w log)
    as [[analysis|e] log1] eqn:Hu.
  2:{ unfold SearchAgent.chat. unfold mbind at 1, eff_bind.
      rewrite Hu. intros H. discriminate H. }
  rewrite (chat_run w log self user_query analysis log1 Hu).
  destruct (subscript analysis "intent") as [intent|e];
    [|intros H; discriminate H].
  destruct (subscript analysis "search_terms") as [search_terms|e];
    [|intros H; discriminate H].
  destruct (subscript analysis "filters") as [filters|e];
    [|intros H; discriminate H].
  cbn zeta.
  destruct (SearchAgent.searcher_search w search_terms 10 filters)
    as [results|e] eqn:Hsearch; [|intros H; discriminate H].
  set (searched := log1 ++ [SearchAgent.Search search_terms 10 filters]).
  assert (∃ rest,
    (SearchAgent._generate_response user_query intent results w searched).2
      = searched ++ rest
    ∧ ∀ q k f, SearchAgent.Search q k f ∉ rest) as (rest & Hlog & Hrest).
  { destruct results as [|r more].
    - exists []. split; [by rewrite app_nil_r|]. intros q k f H. inversion H.
    - destruct (SearchAgent.format_results (SearchAgent.py_str w)
                  (SearchAgent.unsliceable w) 1 (take 5 (r :: more)) "")
        as [text|e] eqn:Hformat.
      + rewrite (generate_response_run w searched user_query intent
                   (r :: more) text) by done.
        eexists [_]. split; [reflexivity|].
        intros q k f H. apply list_elem_of_singleton in H. discriminate H.
      + rewrite (generate_response_unformatted w searched user_query intent
                   (r :: more) e) by done.
        exists []. split; [by rewrite app_nil_r|].
        intros q k f H. inversion H. }
  destruct (SearchAgent._generate_response user_query intent results w searched)
    as [[response|e] log2]; [|intros H; discriminate H].
  simpl in Hlog. subst log2. simpl. intros [= <- <-].
  exists search_terms, filters, results, response, rest.
  unfold searched. rewrite <- app_assoc. simpl.
  repeat split; done.
Qed.

Lemma chat_bookkeeping_witness :
  ∃ response,
    History.conversation_history
      (SearchAgent.after_chat Desk.fresh "red shoes" (Desk.model_down []) [])
    = [{| History.user := "red shoes"; History.agent := response |}].
Proof.
  destruct (chat_bookkeeping (Desk.model_down []) [] Desk.fresh
              (SearchAgent.after_chat Desk.fresh "red shoes"
                 (Desk.model_down []) [])
              "red shoes"
              (SearchAgent.chat_result "red shoes" (JStr "red shoes") (JObj ∅)
                 [] SearchAgent.apology) eq_refl)
    as (terms & filters & results & response & rest & _ & _ & _ & _ & _ & _
        & _ & _ & ->).
  by exists response.
Defined.

(** X29: when the model's reply parses to an object that has [intent] and
    [search_terms] but no [filters], [_understand_query] returns it as it
    is and [chat] raises [KeyError] on [filters]: nothing is searched and
    the history is left as it was. *)
Theorem chat_reply_without_filters (w : SearchAgent.world)
    (log : list SearchAgent.event) (self : History.memory)
    (user_query text : string) (reply : gmap string json) :
  SearchAgent.generate_content w (SearchAgent.understanding_prompt w user_query)
    SearchAgent.temperature_0_1 (Some "application/json") = Return text →
  SearchAgent.json_loads w text = Return (JObj reply) →
  reply !! "filters" = None →
  is_Some (reply !! "intent") →
  is_Some (reply !! "search_terms") →
  (SearchAgent._understand_query user_query w log).1 = Return (JObj reply)
  ∧ SearchAgent.chat self user_query w log
    = (Raise (PyExc "KeyError" "filters" None),
       log ++ [SearchAgent.Generate
                 (SearchAgent.understanding_prompt w user_query)
                 SearchAgent.temperature_0_1 (Some "application/json")])
  ∧ SearchAgent.after_chat self user_query w log = self.
Proof.
  intros Hgen Hloads Hnone [intent Hintent] [terms Hterms].
  assert (SearchAgent._understand_query user_query w log
          = (Return (JObj reply),
             log ++ [SearchAgent.Generate
                       (SearchAgent.understanding_prompt w user_query)
                       SearchAgent.temperature_0_1 (Some "application/json")]))
    as Hu.
  { rewrite understand_query_run, Hgen, Hloads.
    unfold SearchAgent.clean_analysis. simpl. unfold contains.
    by rewrite Hnone. }
  assert (SearchAgent.chat self user_query w log
          = (Raise (PyExc "KeyError" "filters" None),
             log ++ [SearchAgent.Generate
                       (SearchAgent.understanding_prompt w user_query)
                       SearchAgent.temperature_0_1 (Some "application/json")]))
    as Hrun.
  { rewrite (chat_run w log self user_query _ _ Hu).
    simpl. unfold getitem. by rewrite Hintent, Hterms, Hnone. }
  split; [by rewrite Hu|]. split; [exact Hrun|].
  unfold SearchAgent.after_chat. by rewrite Hrun.
Qed.

Lemma chat_reply_without_filters_witness :
  (SearchAgent.chat Desk.fresh "cheap red shoes"
     (Desk.model_says (JObj Desk.short_reply)) []).1
  = Raise (PyExc "KeyError" "filters" None).
Proof.
  destruct (chat_reply_without_filters (Desk.model_says (JObj Desk.short_reply))
              [] Desk.fresh "cheap red shoes" "reply" Desk.short_reply)
    as (_ & Hrun & _);
    [reflexivity | reflexivity | vm_compute; reflexivity
    | eexists; vm_compute; reflexivity | eexists; vm_compute; reflexivity |].
  by rewrite Hrun.
Defined.

(** ** Starting the agent *)

(** X30: without a non-empty [GEMINI_API_KEY] the constructor of the agent
    raises [ValueError] before it configures or builds anything.  With the
    key, collaborators that return and no [MAX_CONVERSATION_HISTORY], the
    agent starts with an empty history and [max_history = 5], so that its
    history holds the last five exchanges of any conversation. *)
Theorem agent_startup (w : Startup.world) (log : list Startup.event) :
  ((Startup.env w !! "GEMINI_API_KEY" = None
    ∨ Startup.env w !! "GEMINI_API_KEY" = Some "") →
   Startup.__init__ w log = (Raise Startup.missing_key, log))
  ∧ (∀ key,
       Startup.env w !! "GEMINI_API_KEY" = Some key → key ≠ "" →
       Startup.env w !! "MAX_CONVERSATION_HISTORY" = None →
       Startup.configure w key = Return () →
       Startup.generative_model w
         (default "gemini-1.5-flash" (Startup.env w !! "AGENT_MODEL"))
         = Return () →
       Startup.hybrid_search w = Return () →
       ∃ self,
         (Startup.__init__ w log).1 = Return self
         ∧ self = {| History.conversation_history := [];
                     History.max_history := 5 |}
         ∧ ∀ exchanges,
             History.conversation_history (History.converse self exchanges)
             = drop (length exchanges - 5) exchanges).
Proof.
  unfold Startup.__init__, ask, perform, pure_outcome, Config.getenv,
    mbind, eff_bind, mret, eff_ret.
  split.
  - by intros [-> | ->].
  - intros key Hkey Hne Hmax Hconf Hmodel Hsearch.
    rewrite Hkey, Hmax. destruct key as [|c key]; [done|]. simpl.
    rewrite Hconf.
    assert (match Startup.env w !! "AGENT_MODEL" with
            | Some value => value
            | None => "gemini-1.5-flash"
            end = default "gemini-1.5-flash" (Startup.env w !! "AGENT_MODEL"))
      as -> by by destruct (Startup.env w !! "AGENT_MODEL").
    rewrite Hmodel, Hsearch.
    eexists. split; [reflexivity|]. split; [reflexivity|].
    intros exchanges.
    apply (proj1 (converse_from_empty 5 exchanges ltac:(lia))).
Qed.

Lemma agent_startup_witness :
  Startup.__init__
    {| Startup.env := ∅;
       Startup.configure := λ _, Return ();
       Startup.generative_model := λ _, Return ();
       Startup.hybrid_search := Return ();
       Startup.py_int := λ _, Return 5 |} []
  = (Raise Startup.missing_key, []).
Proof.
  apply (agent_startup
    {| Startup.env := ∅;
       Startup.configure := λ _, Return ();
       Startup.generative_model := λ _, Return ();
       Startup.hybrid_search := Return ();
       Startup.py_int := λ _, Return 5 |} []).
  by left.
Defined.
